(** * The request gateway of cht-core: routing firewall, audited writes,
      change-feed proxy, and the e2e request helper

    The development embeds two source files:

    - the API routing table (the second document of
      [webapp/src/js/enketo/widgets/rdtoolkit-provisioning.js], an Express
      application), from the point where [authorization.getUserCtx] has put
      the user context on the request (line 383) down to the catch-all
      proxy (line 859), together with [handleJsonRequest] and the event
      listeners of the three proxies;
    - the e2e helper [unnamed/part_000] ([request], [saveDoc], [getDoc],
      [deleteDoc], [updateSettings], [revertSettings]).

    Express itself, body-parser, compression and http-proxy are external
    libraries: the parts of their behaviour the routing table relies on
    (path patterns, [next()] / [next('route')], listener order) are modelled
    in the first sections. *)

From Stdlib Require Import Ascii String ZArith Bool Lia.
From stdpp Require Import base list strings gmap.

Local Open Scope string_scope.
Local Open Scope list_scope.

(** ** Path patterns

    Express compiles a route string with path-to-regexp: a star becomes
    "any characters", [:name] becomes "one or more characters other than a
    slash", [:name*] becomes that followed by an optional slash-led rest, a
    slash before [:name?] moves inside the optional group, and everything
    else ([+], [?], [{0,}], groups) is kept as regular-expression syntax.
    The result is anchored at both ends and case-insensitive.  The patterns
    below are those regular expressions. *)

Inductive re : Type :=
| Void
| Eps
| Chr (c : ascii)          (* a literal character, compared case-insensitively *)
| Dot                      (* [.]: any character but a line terminator *)
| NotSlash                 (* [[^\/]] *)
| Cat (r s : re)
| Alt (r s : re)
| Star (r : re).

Definition Plus (r : re) : re := Cat r (Star r).
Definition Opt (r : re) : re := Alt Eps r.

Fixpoint lit (s : string) : re :=
  match s with
  | EmptyString => Eps
  | String c s' => Cat (Chr c) (lit s')
  end.

Definition lower (c : ascii) : ascii :=
  let n := nat_of_ascii c in
  if (65 <=? n)%nat && (n <=? 90)%nat then ascii_of_nat (n + 32) else c.

Definition is_line_terminator (c : ascii) : bool :=
  Ascii.eqb c "010"%char || Ascii.eqb c "013"%char.

Fixpoint nullable (r : re) : bool :=
  match r with
  | Void => false
  | Eps => true
  | Chr _ | Dot | NotSlash => false
  | Cat r s => nullable r && nullable s
  | Alt r s => nullable r || nullable s
  | Star _ => true
  end.

Fixpoint deriv (a : ascii) (r : re) : re :=
  match r with
  | Void | Eps => Void
  | Chr c => if Ascii.eqb (lower a) (lower c) then Eps else Void
  | Dot => if is_line_terminator a then Void else Eps
  | NotSlash => if Ascii.eqb a "/"%char then Void else Eps
  | Cat r s =>
      if nullable r then Alt (Cat (deriv a r) s) (deriv a s)
      else Cat (deriv a r) s
  | Alt r s => Alt (deriv a r) (deriv a s)
  | Star r => Cat (deriv a r) (Star r)
  end.

Fixpoint matches (r : re) (w : list ascii) : bool :=
  match w with
  | [] => nullable r
  | a :: w' => matches (deriv a r) w'
  end.

Definition path_of (s : string) : list ascii := list_ascii_of_string s.

(** A pattern given as a sequence of pieces, as the route strings are
    concatenations (the route prefix followed by an endpoint). *)
Definition seq (rs : list re) : re := foldr Cat Eps rs.

Definition slash : re := Chr "/".
Definition slashes : re := Plus slash.                       (* [/+] *)
Definition any : re := Star Dot.                             (* a star wildcard *)
Definition rest : re := Opt (Cat slash any).                 (* an optional slash-led rest *)
Definition param : re := Plus NotSlash.                      (* [:name] *)
Definition param_star : re :=                                (* [:name*] *)
  Cat (Plus NotSlash) (Opt (Cat slash (Plus Dot))).

(** JavaScript's [String.prototype.replace] with a string pattern: the first
    occurrence only, compared exactly. *)
Fixpoint strip_prefix (p w : list ascii) : option (list ascii) :=
  match p, w with
  | [], _ => Some w
  | _ :: _, [] => None
  | a :: p', b :: w' => if Ascii.eqb a b then strip_prefix p' w' else None
  end.

Fixpoint replace_first (pat rep w : list ascii) : list ascii :=
  match strip_prefix pat w with
  | Some tl => rep ++ tl
  | None =>
      match w with
      | [] => []
      | a :: w' => a :: replace_first pat rep w'
      end
  end.

(** ** Requests, responses and middleware *)

Inductive method : Type := GET | HEAD | POST | PUT | DELETE | OPTIONS | PATCH.

(** The user context of section 3 of the specification: identity, roles,
    facility, and the online classification derived from the roles. *)
Record UserContext : Type := {
  identity : string;
  roles : list string;
  facilityId : string;
  isOnline : bool;
}.

Record request : Type := {
  req_method : method;
  url : list ascii;               (* the pathname routes are matched on *)
  content_type : option string;   (* [req.headers['content-type']] *)
  userCtx : UserContext;          (* [req.userCtx], set by [getUserCtx] *)
  authorized : bool;              (* [req.authorized] *)
  infodoc_marked : bool;          (* the mark left by [infodoc.mark] *)
}.

Definition set_authorized (r : request) : request :=
  {| req_method := req_method r; url := url r; content_type := content_type r;
     userCtx := userCtx r; authorized := true;
     infodoc_marked := infodoc_marked r |}.

Definition set_marked (r : request) : request :=
  {| req_method := req_method r; url := url r; content_type := content_type r;
     userCtx := userCtx r; authorized := authorized r;
     infodoc_marked := true |}.

Definition set_url (u : list ascii) (r : request) : request :=
  {| req_method := req_method r; url := u; content_type := content_type r;
     userCtx := userCtx r; authorized := authorized r;
     infodoc_marked := infodoc_marked r |}.

(** A request as it leaves [authorization.getUserCtx] with the user context
    of a validated session: nothing has set [req.authorized] or marked it
    yet.  Requests without a session are outside this model. *)
Definition incoming (m : method) (p : string) (ct : option string)
    (u : UserContext) : request :=
  {| req_method := m; url := path_of p; content_type := ct; userCtx := u;
     authorized := false; infodoc_marked := false |}.

Inductive proxy_kind : Type := proxy | proxyForAuth | proxyForChanges.

Inductive parser : Type := jsonParser | formParser | textParser | jsonQueryParser.

Inductive response : Type :=
| Proxied (p : proxy_kind) (r : request)   (* [p.web(req, res)]: sent to CouchDB *)
| FirewallError                            (* the firewall's 403 *)
| Error (code : option Z) (message : string) (* [serverUtils.error], [serverUtils.serverError] *)
| ParserError (p : parser) (code : Z)      (* a body parser called [next(err)] *)
| Sent (code : Z) (body : string)          (* [res.status(..).send], [res.json], [res.redirect] *)
| Answered (by_ : string)                  (* an inline handler answered *)
| Controlled (name : string) (code : Z)    (* a controller answered *)
| NotFound.                                (* no route answered *)

(** Responses that involve the backing store: a proxied request, or a
    controller (controllers query the store themselves). *)
Definition reaches_store (x : response) : bool :=
  match x with
  | Proxied _ _ | Controlled _ _ => true
  | _ => false
  end.

Inductive outcome : Type :=
| Next (r : request)        (* [next()] *)
| NextRoute (r : request)   (* [next('route')] *)
| Respond (x : response).

Inductive ctl_result : Type :=
| CNext                     (* the controller called [next()] *)
| CSent (code : Z).         (* the controller answered *)

(** The middleware and handlers the routing table mounts. *)
Inductive mw : Type :=
| Parse (p : parser)
| InfodocMark                              (* [infodoc.mark] *)
| OfflineUserFirewall                      (* [authorization.offlineUserFirewall] *)
| OnlineUserPassThrough                    (* [authorization.onlineUserPassThrough] *)
| OnlineUserProxy (p : proxy_kind)         (* [_.partial(authorization.onlineUserProxy, p)] *)
| GetUserSettings                          (* [authorization.getUserSettings] *)
| SetAuthorized                            (* [authorization.setAuthorized] *)
| Controller (name : string)               (* a handler of an absent controller module *)
| JsonChecked (callback : mw)              (* the inner function of [handleJsonRequest] *)
| ProxyWeb (p : proxy_kind)                (* [(req, res) => p.web(req, res)] *)
| CanEdit                                  (* [canEdit] *)
| RewriteMetaUrl                           (* the medic-user meta alias *)
| Send (code : Z) (body : string)
| Inline (name : string).                  (* an inline handler that always answers *)

Inductive step : Type := Continued | Skipped | Ended.

Definition event : Type := mw * step.

Inductive verb : Type := All | Get | Post | Put | Delete | Use.

(** Express answers HEAD requests with the GET handlers. *)
Definition handles (v : verb) (m : method) : bool :=
  match v, m with
  | All, _ | Use, _ => true
  | Get, GET | Get, HEAD => true
  | Post, POST => true
  | Put, PUT => true
  | Delete, DELETE => true
  | _, _ => false
  end.

Inductive pattern : Type :=
| Path (r : re)   (* a compiled route string *)
| FastStar        (* the route string ['*'] *)
| FastSlash.      (* [app.use] without a path *)

Definition pattern_matches (p : pattern) (w : list ascii) : bool :=
  match p with
  | Path r => matches r w
  | FastStar | FastSlash => true
  end.

Record route : Type := {
  rverb : verb;
  rpath : pattern;
  chain : list mw;
}.

Definition route_matches (rt : route) (r : request) : bool :=
  handles (rverb rt) (req_method r) && pattern_matches (rpath rt) (url r).

Definition on (v : verb) (p : list re) (c : list mw) : route :=
  {| rverb := v; rpath := Path (seq p); chain := c |}.

(** [handleJsonRequest]: the JSON parser, then the content-type guard that
    wraps the callback. *)
Definition handleJsonRequest (v : verb) (p : list re) (callback : mw) : route :=
  on v p [Parse jsonParser; JsonChecked callback].

Definition deleteJson := handleJsonRequest Delete.
Definition postJson := handleJsonRequest Post.
Definition putJson := handleJsonRequest Put.

Section Gateway.

(** [environment.db] and [environment.ddoc] (the module is not in the
    sources; both are plain names without pattern characters). *)
Variable db ddoc : string.

(** The body parsers (body-parser and [middleware/query-parser]): either
    the request goes on, or the parser fails with a status code. *)
Variable body_parser : parser -> request -> option Z.

(** The handlers exported by the controller modules, by name: they answer,
    or call [next()] leaving the request's user context and flags alone. *)
Variable controller : string -> request -> ctl_result.

(** [auth.check(req, permission)] resolving to a user. *)
Variable auth_check : string -> request -> bool.

(** *** [middleware/authorization] *)

(** Modelled from the spec: [middleware/authorization] is not in the
    sources.  The firewall lets a request through when the user is online
    or the request carries the authorized flag, and answers Forbidden
    otherwise (specification 4.2, and the comment above [app.use] at
    line 832). *)
Definition offlineUserFirewall (r : request) : outcome :=
  if isOnline (userCtx r) || authorized r then Next r
  else Respond FirewallError.

(** Modelled from the spec: [authorization.setAuthorized] "adds the
    authorized flag to the req object, so it passes the firewall". *)
Definition setAuthorized (r : request) : outcome := Next (set_authorized r).

(** Modelled from the spec: [authorization.getUserSettings] reads the
    offline user's settings into the user context; identity and online
    classification are fixed for the request's lifetime
    (specification 3). *)
Definition getUserSettings (r : request) : outcome := Next r.

(** Modelled from the spec: "online user requests pass through to the next
    route"; an offline user's request stays on this route, with the user
    settings read. *)
Definition onlineUserPassThrough (r : request) : outcome :=
  if isOnline (userCtx r) then NextRoute r else getUserSettings r.

(** Modelled from the spec: "authorization middleware to proxy online users
    requests directly to CouchDB"; an offline user's request stays on this
    route, with the user settings read. *)
Definition onlineUserProxy (p : proxy_kind) (r : request) : outcome :=
  if isOnline (userCtx r) then Respond (Proxied p r) else getUserSettings r.

(** *** [controllers/infodoc], request side *)

(** Modelled from the spec: [controllers/infodoc] is not in the sources;
    [infodoc.mark] marks the request as a write whose audit record is to
    be stamped when the proxied response comes back. *)
Definition infodoc_mark (r : request) : outcome := Next (set_marked r).

(** *** Handlers defined in the routing file *)

Definition canEdit (r : request) : outcome :=
  if auth_check "can_edit" r then Respond (Proxied proxyForAuth r)
  else Respond (Error None "not-authorized").

Definition json_content_type (r : request) : bool :=
  match content_type r with
  | Some ct => negb (String.eqb ct "") && String.eqb ct "application/json"
  | None => false
  end.

Definition rewriteMetaUrl (r : request) : outcome :=
  if String.eqb db "medic" then Next r
  else Next (set_url (replace_first (path_of "/medic-user-")
                        (path_of ("/" +:+ db +:+ "-user-")) (url r)) r).

Fixpoint run_mw (m : mw) (r : request) : outcome :=
  match m with
  | Parse p =>
      match body_parser p r with
      | None => Next r
      | Some code => Respond (ParserError p code)
      end
  | InfodocMark => infodoc_mark r
  | OfflineUserFirewall => offlineUserFirewall r
  | OnlineUserPassThrough => onlineUserPassThrough r
  | OnlineUserProxy p => onlineUserProxy p r
  | GetUserSettings => getUserSettings r
  | SetAuthorized => setAuthorized r
  | Controller name =>
      match controller name r with
      | CNext => Next r
      | CSent code => Respond (Controlled name code)
      end
  | JsonChecked callback =>
      if json_content_type r then run_mw callback r
      else Respond (Error (Some 400%Z) "Content-Type must be application/json")
  | ProxyWeb p => Respond (Proxied p r)
  | CanEdit => canEdit r
  | RewriteMetaUrl => rewriteMetaUrl r
  | Send code body => Respond (Sent code body)
  | Inline name => Respond (Answered name)
  end.

(** *** Express's router *)

(** The handlers of one route run in order; [next('route')] leaves the
    route, a response ends the request. *)
Fixpoint run_chain (hs : list mw) (r : request)
    : list event * (request + response) :=
  match hs with
  | [] => ([], inl r)
  | h :: hs' =>
      match run_mw h r with
      | Next r' => let '(tr, o) := run_chain hs' r' in ((h, Continued) :: tr, o)
      | NextRoute r' => ([(h, Skipped)], inl r')
      | Respond x => ([(h, Ended)], inr x)
      end
  end.

(** Routes are tried in registration order. *)
Fixpoint handle (rs : list route) (r : request)
    : list event * (request + response) :=
  match rs with
  | [] => ([], inl r)
  | rt :: rs' =>
      if route_matches rt r then
        match run_chain (chain rt) r with
        | (tr, inl r') => let '(tr', o) := handle rs' r' in (tr ++ tr', o)
        | (tr, inr x) => (tr, inr x)
        end
      else handle rs' r
  end.

Definition dispatch (rs : list route) (r : request) : list event * response :=
  match handle rs r with
  | (tr, inl _) => (tr, NotFound)
  | (tr, inr x) => (tr, x)
  end.

(** *** The routing table *)

Definition routePrefix : list re := [slashes; lit db; slashes].
Definition pathPrefix : string := "/" +:+ db +:+ "/".
Definition appPrefix : string :=
  pathPrefix +:+ "_design/" +:+ ddoc +:+ "/_rewrite/".

Definition ONLINE_ONLY_ENDPOINTS : list (list re) :=
  [ [lit "_design/"; any; lit "/_list/"; any];
    [lit "_design/"; any; lit "/_show/"; any];
    [lit "_design/"; any; lit "/_view/"; any];
    [lit "_find"; rest];
    [lit "_explain"; rest];
    [lit "_index"; rest];
    [lit "_ensure_full_commit"; rest];
    [lit "_security"; rest];
    [lit "_purge"; rest] ].

(** block offline users from accessing some unaudited CouchDB endpoints *)
Definition online_only_routes : list route :=
  map (fun e => on All (routePrefix ++ e) [OfflineUserFirewall])
      ONLINE_ONLY_ENDPOINTS.

(** allow anyone to access their session *)
Definition session_route : route :=
  on All [lit "/_session"] [ProxyWeb proxy].

Definition UNAUDITED_ENDPOINTS : list (list re) :=
  [ routePrefix ++ [lit "_local/"; any];
    routePrefix ++ [lit "_revs_diff"];
    routePrefix ++ [lit "_missing_revs"];
    routePrefix ++ [lit "_design/"; any; lit "/_list/"; any];
    routePrefix ++ [lit "_design/"; any; lit "/_show/"; any];
    routePrefix ++ [lit "_design/"; any; lit "/_view/"; any];
    routePrefix ++ [lit "_find"];
    routePrefix ++ [lit "_explain"] ].

Definition unaudited_routes : list route :=
  map (fun e => on All e [ProxyWeb proxy]) UNAUDITED_ENDPOINTS.

Definition unavailable : string := "Setup services are not currently available".

(** The API endpoints, lines 440 to 586. *)
Definition api_routes : list route :=
  [ on Get [lit "/setup/poll"] [Send 200 "ready"];
    on All [lit "/setup"] [Send 503 unavailable];
    on All [lit "/setup/password"] [Send 503 unavailable];
    on All [lit "/setup/finish"] [Send 200 unavailable];
    on Get [lit "/api/info"] [Send 200 "version"];
    on Get [lit "/api/deploy-info"] [Inline "deploy-info"];
    on Get [lit "/api/v1/monitoring"]
       [Controller "deprecation.deprecate"; Controller "monitoring.getV1"];
    on Get [lit "/api/v2/monitoring"] [Controller "monitoring.getV2"];
    on Get [lit "/api/auth/"; param] [Inline "auth.checkUrl"];
    on Post [lit "/api/v1/upgrade"] [Parse jsonParser; Controller "upgrade.upgrade"];
    on Post [lit "/api/v1/upgrade/stage"] [Parse jsonParser; Controller "upgrade.stage"];
    on Post [lit "/api/v1/upgrade/complete"]
       [Parse jsonParser; Controller "upgrade.complete"];
    on Post [lit "/api/v1/sms/africastalking/incoming-messages"]
       [Parse formParser; Controller "africasTalking.incomingMessages"];
    on Post [lit "/api/v1/sms/africastalking/delivery-reports"]
       [Parse formParser; Controller "africasTalking.deliveryReports"];
    on Post [lit "/api/v1/sms/radpidpro/incoming-messages"]
       [Parse jsonParser; Controller "rapidPro.incomingMessages"];
    on Get [lit "/api/sms/"] [Send 301 "/api/sms"];
    on Get [lit "/api/sms"] [Controller "smsGateway.get"];
    on Post [lit "/api/sms/"] [Send 301 "/api/sms"];
    postJson [lit "/api/sms"] (Controller "smsGateway.post");
    on Get [lit "/api/v2/export/"; param] [Controller "exportData.get"];
    postJson [lit "/api/v2/export/"; param] (Controller "exportData.get");
    on Post [lit "/api/v1/records"]
       [Parse jsonParser; Parse formParser; Controller "records.v1"];
    on Post [lit "/api/v2/records"]
       [Parse jsonParser; Parse formParser; Controller "records.v2"];
    on Get [lit "/api/v1/forms/"] [Send 301 "/api/v1/forms"];
    on Get [lit "/api/v1/forms"] [Controller "forms.list"];
    on Get [lit "/api/v1/forms/"; param] [Controller "forms.get"];
    on Post [lit "/api/v1/forms/validate"]
       [Parse textParser; Controller "forms.validate"];
    on Get [lit "/api/v1/users"] [Controller "users.get"];
    postJson [lit "/api/v1/users"] (Controller "users.create");
    postJson [lit "/api/v1/users/"; param] (Controller "users.update");
    on Delete [lit "/api/v1/users/"; param] [Controller "users.delete"];
    on Get [lit "/api/v1/users-info"] [GetUserSettings; Controller "users.info"];
    postJson [lit "/api/v1/places"] (Inline "places.createPlace");
    postJson [lit "/api/v1/places/"; param] (Inline "places.updatePlace");
    postJson [lit "/api/v1/people"] (Inline "people.createPerson");
    postJson [lit "/api/v1/bulk-delete"] (Controller "bulkDocs.bulkDelete");
    (* offline users are not allowed to hydrate documents via the hydrate API *)
    on Get [lit "/api/v1/hydrate"]
       [OfflineUserFirewall; Parse jsonQueryParser; Controller "hydration.hydrate"];
    on Post [lit "/api/v1/hydrate"]
       [OfflineUserFirewall; Parse jsonParser; Parse jsonQueryParser;
        Controller "hydration.hydrate"];
    (* offline users are not allowed to get contacts by phone *)
    on Get [lit "/api/v1/contacts-by-phone"]
       [OfflineUserFirewall; Controller "contactsByPhone.request"];
    on Post [lit "/api/v1/contacts-by-phone"]
       [OfflineUserFirewall; Parse jsonParser; Controller "contactsByPhone.request"];
    on Get [lit (appPrefix +:+ "app_settings/" +:+ ddoc); Opt (Cat slash param)]
       [Controller "settings.getV0"];
    on Get [lit "/api/v1/settings"] [Controller "settings.get"];
    on Get [lit "/api/v1/settings/deprecated-transitions"]
       [Controller "settings.getDeprecatedTransitions"];
    putJson [lit (appPrefix +:+ "update_settings/" +:+ ddoc)]
       (Controller "settings.put");
    putJson [lit "/api/v1/settings"] (Controller "settings.put");
    on Get [lit "/api/couch-config-attachments"]
       [Controller "couchConfigController.getAttachments"];
    on Get [lit "/purging"]
       [OnlineUserPassThrough; Controller "purgedDocsController.info"];
    on Get [lit "/purging/changes"]
       [OnlineUserPassThrough; Controller "purgedDocsController.getPurgedDocs"];
    on Get [lit "/purging/checkpoint"]
       [OnlineUserPassThrough; Controller "purgedDocsController.checkpoint"];
    on Get [lit "/api/v1/users-doc-count"]
       [Controller "replicationLimitLogController.get"] ].

Definition onlineUserProxy_ : mw := OnlineUserProxy proxy.
Definition onlineUserChangesProxy : mw := OnlineUserProxy proxyForChanges.

Definition changesPath : list re := routePrefix ++ [lit "_changes"; rest].
Definition allDocsPath : list re := routePrefix ++ [lit "_all_docs"; rest].
Definition docPath : list re := routePrefix ++ [param; Star slash].
Definition attachmentPath : list re := routePrefix ++ [param; slashes; param_star].
Definition ddocPath : list re := routePrefix ++ [lit "_design"; slashes; param_star].

(** filter _bulk_docs requests for offline users: an audited endpoint *)
Definition bulkDocs_route : route :=
  on Post (routePrefix ++ [lit "_bulk_docs"; rest])
     [Parse jsonParser; InfodocMark; OnlineUserPassThrough;
      Parse jsonQueryParser; Controller "bulkDocs.request"; SetAuthorized].

(** db-doc and attachment requests: audited endpoints *)
Definition dbPost_route : route :=
  on Post [slashes; lit db; Opt slash]
     [Parse jsonParser; InfodocMark; OnlineUserPassThrough;
      Parse jsonQueryParser; Controller "dbDoc.request"; SetAuthorized].

Definition docPut_route : route :=
  on Put docPath
     [Parse jsonParser; InfodocMark; OnlineUserPassThrough;
      Parse jsonQueryParser; Controller "dbDoc.request"; SetAuthorized].

Definition docDelete_route : route :=
  on Delete docPath
     [OnlineUserPassThrough; Parse jsonQueryParser;
      Controller "dbDoc.request"; SetAuthorized].

Definition attachment_route : route :=
  on All attachmentPath
     [OnlineUserPassThrough; Parse jsonQueryParser;
      Controller "dbDoc.request"; SetAuthorized].

Definition metaPathPrefix : list re :=
  [lit ("/" +:+ db +:+ "-user-"); any; lit "-meta/"].

(** Replication, document and application endpoints, lines 596 to 830. *)
Definition store_routes : list route :=
  [ on Get changesPath [onlineUserChangesProxy; Controller "changes.request"];
    on Post changesPath
       [onlineUserChangesProxy; Parse jsonParser; Controller "changes.request"];
    on Get allDocsPath
       [onlineUserProxy_; Parse jsonQueryParser; Controller "allDocs.request"];
    on Post allDocsPath
       [onlineUserProxy_; Parse jsonParser; Parse jsonQueryParser;
        Controller "allDocs.request"];
    on Post (routePrefix ++ [lit "_bulk_get"; rest])
       [onlineUserProxy_; Parse jsonParser; Parse jsonQueryParser;
        Controller "bulkGet.request"];
    bulkDocs_route;
    on Get ddocPath
       [onlineUserProxy_; Parse jsonQueryParser;
        Controller "dbDoc.requestDdoc"; SetAuthorized];
    on Get docPath
       [onlineUserProxy_; Parse jsonQueryParser; Controller "dbDoc.request"];
    dbPost_route;
    docPut_route;
    docDelete_route;
    attachment_route;
    on All [slashes; lit "medic-user-"; any; lit "-meta"; rest] [RewriteMetaUrl];
    (* AuthZ for this endpoint should be handled by couchdb *)
    on Get (metaPathPrefix ++ [lit "_changes"]) [ProxyWeb proxyForChanges];
    on Put metaPathPrefix [Controller "createUserDb"];
    on All (metaPathPrefix ++ [any]) [SetAuthorized];
    on Get [lit "/service-worker.js"] [Inline "service-worker.js"];
    on Get [lit (pathPrefix +:+ "_design/" +:+ ddoc +:+ "/_rewrite")]
       [Send 302 appPrefix];
    on Get [lit ("/" +:+ db)] [Send 302 pathPrefix];
    (* allow offline users to access the app *)
    on All [lit appPrefix; any] [SetAuthorized] ].

(** Every route registered ahead of the firewall. *)
Definition classified_routes : list route :=
  online_only_routes ++ session_route :: unaudited_routes
    ++ api_routes ++ store_routes.

(** block offline users requests from accessing CouchDB directly *)
Definition firewall_route : route :=
  {| rverb := Use; rpath := FastSlash; chain := [OfflineUserFirewall] |}.

Definition editPath : list re := routePrefix ++ [any].

Definition edit_routes : list route :=
  [ on Put editPath [CanEdit]; on Post editPath [CanEdit];
    on Delete editPath [CanEdit] ].

Definition catch_all_route : route :=
  {| rverb := All; rpath := FastStar; chain := [ProxyWeb proxy] |}.

Definition proxied_routes : list route := edit_routes ++ [catch_all_route].

Definition routes : list route :=
  classified_routes ++ firewall_route :: proxied_routes.

(** The endpoints the routing file calls audited (lines 636 and 648) that
    take writes. *)
Definition audited_write_routes : list route :=
  [bulkDocs_route; dbPost_route; docPut_route; docDelete_route; attachment_route].

End Gateway.

(** A concrete deployment for the examples: database and design document
    [medic], parsers that accept, controllers that call [next()], and a user
    who may edit. *)
Module Demo.
Definition parsers_ok (_ : parser) (_ : request) : option Z := None.
Definition controllers_next (_ : string) (_ : request) : ctl_result := CNext.
Definition may_edit (_ : string) (_ : request) : bool := true.
Definition table : list route := routes "medic" "medic".
Definition serve (r : request) : list event * response :=
  dispatch "medic" parsers_ok controllers_next may_edit table r.
Definition chw : UserContext :=
  {| identity := "chw"; roles := ["district_admin"]; facilityId := "clinic-1";
     isOnline := false |}.
Definition admin : UserContext :=
  {| identity := "admin"; roles := ["_admin"]; facilityId := "";
     isOnline := true |}.
End Demo.

(** ** The listeners on the proxies' [proxyRes] event *)

(** The response as the compression middleware wraps it: chunks written but
    still held by the compressor, and chunks that went out to the client. *)
Record res_stream (A : Type) : Type := {
  held : list A;
  sent : list A;
}.
Arguments held {A} _.
Arguments sent {A} _.

Definition fresh_stream {A : Type} : res_stream A := {| held := []; sent := [] |}.

Section ChangesProxy.
Context {A : Type}.

(** How many of the held chunks the compressor lets out by itself after a
    write (it decides by its own buffer sizes). *)
Variable emits : list A -> nat.

Definition res_write (c : A) (s : res_stream A) : res_stream A :=
  let h := held s ++ [c] in
  {| held := drop (emits h) h; sent := sent s ++ take (emits h) h |}.

Definition res_flush (s : res_stream A) : res_stream A :=
  {| held := []; sent := sent s ++ held s |}.

(** [proxyRes.pipe(res)] registers its data listener first, the flush
    listener comes second; listeners run in registration order. *)
Definition changes_on_data (c : A) (s : res_stream A) : res_stream A :=
  res_flush (res_write c s).

(** [proxyForChanges.on('proxyRes')] over the chunks upstream delivers. *)
Definition proxyForChanges_proxyRes (chunks : list A) (s : res_stream A)
    : res_stream A :=
  foldl (fun s c => changes_on_data c s) s chunks.

(** For comparison, a plain [pipe] without the flush listener. *)
Definition piped_only (chunks : list A) (s : res_stream A) : res_stream A :=
  foldl (fun s c => res_write c s) s chunks.
End ChangesProxy.

(** *** Filtered reads *)

Record doc : Type := {
  doc_id : string;
  doc_rev : string;
  doc_body : string;
}.

Inductive stub_reason : Type := Forbidden.

Inductive bulk_row : Type :=
| Doc (d : doc)
| Stub (id : string) (why : stub_reason).

(** Modelled from the spec: the functions the controllers install as
    [res.interceptResponse] are not in the sources.  Specification 4.3 and
    4.4: a document is visible when its id is in the caller's visibility
    set. *)
Definition isVisible (vs : gmap string string) (d : doc) : bool :=
  bool_decide (is_Some (vs !! doc_id d)).

(** Modelled from the spec: [filterBulkResult] of specification 4.4, the
    interceptor of a bulk read: one output row per input row, in order. *)
Definition filterBulkResult (vs : gmap string string) (rows : list doc)
    : list bulk_row :=
  map (fun d => if isVisible vs d then Doc d else Stub (doc_id d) Forbidden) rows.

(** [proxyForAuth.on('proxyRes')]: with [res.interceptResponse] set, the
    chunks are gathered into one body and handed to it when the upstream
    response ends; otherwise the upstream response is piped through. *)
Definition proxyForAuth_proxyRes (interceptResponse : option (list doc -> list bulk_row))
    (chunks : list (list doc)) : list bulk_row :=
  match interceptResponse with
  | Some intercept => intercept (concat chunks)
  | None => map Doc (concat chunks)
  end.

(** Three rows and a caller who sees the first and the last, for the
    examples. *)
Definition row_a : doc := {| doc_id := "a"; doc_rev := "1-a"; doc_body := "A" |}.
Definition row_b : doc := {| doc_id := "b"; doc_rev := "1-b"; doc_body := "B" |}.
Definition row_c : doc := {| doc_id := "c"; doc_rev := "1-c"; doc_body := "C" |}.
Definition sees_a_c : gmap string string := <["a" := "1-a"]> (<["c" := "1-c"]> empty).

(** *** Audit records *)

Record AuditRecord : Type := {
  docId : string;
  initialReplicationDate : Z;
  latestWriteDate : Z;
  writerIdentity : string;
}.

(** Modelled from the spec: [controllers/infodoc] is not in the sources.
    Specification 3 and 4.5: the record of a document is created on the
    first write seen, and on later writes its [latestWriteDate] and
    [writerIdentity] are updated; nothing deletes a record. *)
Definition stamp (now : Z) (who : string) (st : gmap string AuditRecord)
    (id : string) : gmap string AuditRecord :=
  match st !! id with
  | None =>
      <[id := {| docId := id; initialReplicationDate := now;
                 latestWriteDate := now; writerIdentity := who |}]> st
  | Some a =>
      <[id := {| docId := id; initialReplicationDate := initialReplicationDate a;
                 latestWriteDate := now; writerIdentity := who |}]> st
  end.

(** Modelled from the spec: [infodoc.update] stamps the documents a marked
    request wrote, at the time the proxied response arrives. *)
Definition infodoc_update (now : Z) (r : request) (ids : list string)
    (st : gmap string AuditRecord) : gmap string AuditRecord :=
  if infodoc_marked r then foldl (stamp now (identity (userCtx r))) st ids
  else st.

(** [proxyForAuth.on('proxyRes', infodoc.update)] and
    [proxy.on('proxyRes', infodoc.update)]: the change-feed proxy has no such
    listener. *)
Definition audits (p : proxy_kind) : bool :=
  match p with
  | proxy | proxyForAuth => true
  | proxyForChanges => false
  end.

Definition on_proxyRes (now : Z) (x : response) (ids : list string)
    (st : gmap string AuditRecord) : gmap string AuditRecord :=
  match x with
  | Proxied p r => if audits p then infodoc_update now r ids st else st
  | _ => st
  end.

(** ** The e2e request helper ([unnamed/part_000]) *)

Module Helper.

#[local] Set Warnings "-register-all".

Inductive json : Type :=
| JNull
| JBool (b : bool)
| JNum (n : Z)
| JStr (s : string)
| JArr (items : list json)
| JObj (props : list (string * json)).

(** JavaScript truthiness of a parsed JSON value. *)
Definition truthy (v : json) : bool :=
  match v with
  | JNull => false
  | JBool b => b
  | JNum n => negb (n =? 0)%Z
  | JStr s => negb (String.eqb s "")
  | JArr _ | JObj _ => true
  end.

(** Reading and assigning a property of an object, keeping the order of
    the properties: an existing property keeps its place, a new one goes
    last. *)
Fixpoint get_prop (k : string) (props : list (string * json)) : option json :=
  match props with
  | [] => None
  | (k', v) :: tl => if String.eqb k k' then Some v else get_prop k tl
  end.

Fixpoint set_prop (k : string) (v : json) (props : list (string * json))
    : list (string * json) :=
  match props with
  | [] => [(k, v)]
  | (k', v') :: tl =>
      if String.eqb k k' then (k', v) :: tl else (k', v') :: set_prop k v tl
  end.

Record options : Type := {
  hostname : option string;
  port : option Z;
  auth : option string;
  path : string;
  method : string;
  headers : list (string * json);
  body : option string;
}.

Inductive promise (A : Type) : Type :=
| Fulfilled (a : A)
| Rejected.
Arguments Fulfilled {A} a.
Arguments Rejected {A}.

(** A call either throws before returning, or returns a promise. *)
Inductive result (A : Type) : Type :=
| Threw (message : string)
| Returned (p : promise A).
Arguments Threw {A} message.
Arguments Returned {A} p.

(** The module's state: the [originalSettings] variable ([None] while it
    is [undefined]) and, for the record, the requests sent so far. *)
Record state : Type := {
  originalSettings : option json;
  requests : list options;
}.

Definition holds (slot : option json) : bool :=
  match slot with
  | Some v => truthy v
  | None => false
  end.

Section Calls.
(** The [environment] of [./auth]. *)
Variables apiHost user pass dbName : string.
Variable apiPort : Z.

(** The server: given the requests sent before and the request, the
    parsed response body, or a rejection (a failed request or a body
    that does not parse). *)
Variable server : list options -> options -> promise json.

Variable JSON_stringify : json -> string.

Definition request (o : options) (st : state) : promise json * state :=
  let o' := {| hostname := Some apiHost; port := Some apiPort;
               auth := Some (user +:+ ":" +:+ pass);
               path := path o; method := method o; headers := headers o;
               body := body o |} in
  (server (requests st) o',
   {| originalSettings := originalSettings st;
      requests := requests st ++ [o'] |}).

Definition saveDoc (d : json) (st : state) : promise json * state :=
  let postData := JSON_stringify d in
  request {| hostname := None; port := None; auth := None;
             path := "/" +:+ dbName; method := "POST";
             headers := [("Content-Type", JStr "application/json");
                         ("Content-Length", JNum (Z.of_nat (String.length postData)))];
             body := Some postData |} st.

Definition getDoc (id : string) (st : state) : promise json * state :=
  request {| hostname := None; port := None; auth := None;
             path := "/" +:+ dbName +:+ "/" +:+ id; method := "GET";
             headers := []; body := None |} st.

(** [doc._deleted = true] in non-strict code: an object gets the
    property; on [null] the assignment throws; on an array the property
    is not part of what [JSON.stringify] writes; on a primitive it is
    dropped silently. *)
Definition assign_deleted (d : json) : option json :=
  match d with
  | JObj props => Some (JObj (set_prop "_deleted" (JBool true) props))
  | JNull => None
  | other => Some other
  end.

Definition deleteDoc (id : string) (st : state) : promise json * state :=
  match getDoc id st with
  | (Fulfilled d, st1) =>
      match assign_deleted d with
      | Some d' => saveDoc d' st1
      | None => (Rejected, st1)
      end
  | (Rejected, st1) => (Rejected, st1)
  end.

Definition settings_path (name : string) : string :=
  "/" +:+ dbName +:+ "/_design/medic/_rewrite/" +:+ name +:+ "/medic".

Definition app_settings_get : options :=
  {| hostname := None; port := None; auth := None;
     path := settings_path "app_settings"; method := "GET";
     headers := []; body := None |}.

Definition update_settings_put (v : json) : options :=
  {| hostname := None; port := None; auth := None;
     path := settings_path "update_settings"; method := "PUT";
     headers := []; body := Some (JSON_stringify v) |}.

Definition updateSettings (updates : json) (st : state)
    : result json * state :=
  if holds (originalSettings st) then
    (Threw "A previous test did not call revertSettings", st)
  else
    match request app_settings_get st with
    | (Fulfilled settings, st1) =>
        let st2 := {| originalSettings := Some settings;
                      requests := requests st1 |} in
        let '(p, st3) := request (update_settings_put updates) st2 in
        (Returned p, st3)
    | (Rejected, st1) => (Returned Rejected, st1)
    end.

Definition revertSettings (st : state) : result unit * state :=
  match originalSettings st with
  | Some original =>
      if truthy original then
        match request (update_settings_put original) st with
        | (Fulfilled _, st1) =>
            (Returned (Fulfilled tt),
             {| originalSettings := Some JNull; requests := requests st1 |})
        | (Rejected, st1) => (Returned Rejected, st1)
        end
      else (Threw "No original settings to revert to", st)
  | None => (Threw "No original settings to revert to", st)
  end.
End Calls.

End Helper.

(** A server for the examples: it answers a GET with a stored document and
    anything else with an acknowledgement. *)
Module HelperDemo.
Import Helper.

Definition stored : json :=
  JObj [("_id", JStr "doc1"); ("_rev", JStr "1-abc"); ("type", JStr "person")].

Definition server (_ : list options) (o : options) : promise json :=
  if String.eqb (method o) "GET" then Fulfilled stored
  else Fulfilled (JObj [("ok", JBool true)]).

Definition stringify (_ : json) : string := "{}".

Definition idle : state := {| originalSettings := None; requests := [] |}.

Definition updated : state :=
  {| originalSettings := Some (JObj [("locale", JStr "en")]); requests := [] |}.

Definition updateSettings := updateSettings "localhost" "admin" "pass" "medic-test" 5988 server stringify.
Definition revertSettings := revertSettings "localhost" "admin" "pass" "medic-test" 5988 server stringify.
Definition deleteDoc := deleteDoc "localhost" "admin" "pass" "medic-test" 5988 server stringify.
End HelperDemo.

(** ** Observations on traces and on the routing table *)

(** A firewall handler that let the request through. *)
Definition is_pass (ev : event) : bool :=
  match ev with
  | (OfflineUserFirewall, Continued) => true
  | _ => false
  end.

Fixpoint passes (tr : list event) : nat :=
  match tr with
  | [] => 0
  | ev :: tr' => (if is_pass ev then 1 else 0) + passes tr'
  end.

Definition is_firewall (m : mw) : bool :=
  match m with
  | OfflineUserFirewall => true
  | _ => false
  end.

Definition is_canEdit (m : mw) : bool :=
  match m with
  | CanEdit => true
  | _ => false
  end.

(** No event of the trace is a run of a handler selected by [P]. *)
Definition absent (P : mw -> bool) (tr : list event) : bool :=
  forallb (fun ev => negb (P (fst ev))) tr.

(** The handlers that can set [req.authorized]. *)
Fixpoint sets_flag (m : mw) : bool :=
  match m with
  | SetAuthorized => true
  | JsonChecked callback => sets_flag callback
  | _ => false
  end.

(** No handler wrapped by [handleJsonRequest] sets the flag. *)
Definition flag_plain (m : mw) : bool :=
  match m with
  | JsonChecked callback => negb (sets_flag callback)
  | _ => true
  end.

Definition chains_all (P : mw -> bool) (rs : list route) : bool :=
  forallb (fun rt => forallb P (chain rt)) rs.



(** The audited write routes whose chain carries [infodoc.mark]. *)
Definition marked_write_routes (db : string) : list route :=
  [bulkDocs_route db; dbPost_route db; docPut_route db].

(** The request a handler passes on, if it does. *)
Definition goes_on (o : outcome) : option request :=
  match o with
  | Next r | NextRoute r => Some r
  | Respond _ => None
  end.

(** The request that goes on, or is proxied, carries the audit mark. *)
Definition marked_result (o : request + response) : Prop :=
  match o with
  | inl r' => infodoc_marked r' = true
  | inr (Proxied _ q) => infodoc_marked q = true
  | inr _ => True
  end.

(** ** Response headers and the proxies' request listeners *)

Fixpoint lower_string (s : string) : string :=
  match s with
  | EmptyString => EmptyString
  | String c s' => String (lower c) (lower_string s')
  end.

(** [res.setHeader]: header names are case-insensitive, the response keeps
    one value per name. *)
Definition setHeader {V : Type} (name : string) (v : V) (h : gmap string V)
    : gmap string V :=
  <[lower_string name := v]> h.

(** [url.indexOf(pat) !== -1], and a regular expression that is a plain
    string tested anywhere in the URL. *)
Fixpoint contains (pat w : list ascii) : bool :=
  match strip_prefix pat w with
  | Some _ => true
  | None =>
      match w with
      | [] => false
      | _ :: w' => contains pat w'
      end
  end.

(** [staticResources], the expression [/\/(templates|static)\//]. *)
Definition staticResources (u : list ascii) : bool :=
  contains (path_of "/templates/") u || contains (path_of "/static/") u.

Section WriteHeaders.
Variable db ddoc : string.

(** [isClientHuman(req)], of a module that is not in the sources. *)
Variable isClientHuman : bool.
Variable encodeURIComponent : string -> string.
(** [serverUtils.MEDIC_BASIC_AUTH]. *)
Variable MEDIC_BASIC_AUTH : string.

(** [writeHeaders(req, res, headers, redirectHumans)] replaces
    [res.writeHead]; this is the replacement: from the status code it is
    called with and the headers of the response, the status code handed to
    the original [writeHead] and the headers then. *)
Definition writeHeaders (req_url : string) (headers : option (list (string * string)))
    (redirectHumans : bool) (status : Z) (h : gmap string string)
    : Z * gmap string string :=
  let h1 := setHeader "WWW-Authenticate" "Cookie" h in
  let h2 := match headers with
            | Some hs => foldl (fun acc kv => setHeader (fst kv) (snd kv) acc) h1 hs
            | None => h1
            end in
  if (status =? 401)%Z then
    if isClientHuman then
      if redirectHumans then
        (302%Z,
         setHeader "Location"
           (pathPrefix db +:+ "login?redirect=" +:+ encodeURIComponent req_url) h2)
      else (status, h2)
    else (status, setHeader "WWW-Authenticate" MEDIC_BASIC_AUTH h2)
  else (status, h2).

(** [proxy.on('proxyReq')], as far as the response goes: application files
    redirect humans to the login page, static resources and everything else
    do not. *)
Definition proxyReq_writeHead (req_url : string) : Z -> gmap string string -> Z * gmap string string :=
  if negb (staticResources (path_of req_url))
     && contains (path_of (appPrefix db ddoc)) (path_of req_url)
  then writeHeaders req_url (Some []) true
  else writeHeaders req_url None false.

End WriteHeaders.

(** The head of the upstream response: a header may be present with the
    value [undefined]. *)
Record proxy_head (V : Type) : Type := {
  up_statusCode : Z;
  up_statusMessage : option string;
  up_headers : list (string * option V);
}.
Arguments up_statusCode {V} _.
Arguments up_statusMessage {V} _.
Arguments up_headers {V} _.

Record res_head (V : Type) : Type := {
  headersSent : bool;
  statusCode : Z;
  statusMessage : option string;
  res_headers : gmap string V;
}.
Arguments headersSent {V} _.
Arguments statusCode {V} _.
Arguments statusMessage {V} _.
Arguments res_headers {V} _.

Section CopyHeaders.
Context {V : Type}.

(** [String(key).trim()]. *)
Variable trim : string -> string.

Definition copy_header (h : gmap string V) (kv : string * option V) : gmap string V :=
  match snd kv with
  | Some v => setHeader (trim (fst kv)) v h
  | None => h
  end.

Definition copyProxyHeaders (proxyRes : proxy_head V) (res : res_head V) : res_head V :=
  if headersSent res then res
  else
    {| headersSent := false;
       statusCode := up_statusCode proxyRes;
       statusMessage :=
         match up_statusMessage proxyRes with
         | Some m => if String.eqb m "" then statusMessage res else Some m
         | None => statusMessage res
         end;
       res_headers := foldl copy_header (res_headers res) (up_headers proxyRes) |}.

End CopyHeaders.

(** ** More observations on the routing table *)

(** The handlers that send a request to the store through [proxyForAuth]. *)
Fixpoint proxies_for_auth (m : mw) : bool :=
  match m with
  | CanEdit => true
  | ProxyWeb proxyForAuth | OnlineUserProxy proxyForAuth => true
  | JsonChecked callback => proxies_for_auth callback
  | _ => false
  end.

(** The handlers that can leave the audit mark. *)
Fixpoint marks (m : mw) : bool :=
  match m with
  | InfodocMark => true
  | JsonChecked callback => marks callback
  | _ => false
  end.

(** No route that takes the method carries a handler that marks. *)
Definition unmarked_for (m : method) (rs : list route) : bool :=
  forallb (fun rt => negb (handles (rverb rt) m)
                     || forallb (fun h => negb (marks h)) (chain rt)) rs.

(** ** The rest of the request helper *)

Module HelperMore.
Import Helper.

Definition dquote : string := String "034"%char EmptyString.

(** Reading a member of a parsed value: [None] where JavaScript gives
    [undefined]. *)
Definition member (k : string) (d : json) : option json :=
  match d with
  | JObj props => get_prop k props
  | _ => None
  end.

(** An element of an array literal as [JSON.stringify] writes it:
    [undefined] becomes [null]. *)
Definition element (o : option json) : json :=
  match o with
  | Some v => v
  | None => JNull
  end.

Section Calls.
Variables apiHost user pass dbName : string.
Variable apiPort : Z.
Variable server : list options -> options -> promise json.
Variable JSON_stringify : json -> string.

(** The property name a value is converted to when it is used as a key
    ([undefined] included). *)
Variable property_key : option json -> string.

Definition requestOnTestDb (o : options) (st : state) : promise json * state :=
  request apiHost user pass apiPort server
    {| hostname := hostname o; port := port o; auth := auth o;
       path := "/" +:+ dbName +:+ path o; method := method o;
       headers := headers o; body := body o |} st.

Definition getAuditDoc (id : string) (st : state) : promise json * state :=
  request apiHost user pass apiPort server
    {| hostname := None; port := None; auth := None;
       path := "/" +:+ dbName
               +:+ "-audit/_design/medic/_view/audit_records_by_doc?include_docs=true&key=["
               +:+ dquote +:+ id +:+ dquote +:+ "]";
       method := "GET"; headers := []; body := None |} st.

(** The body of the purge request, [{ <doc._id>: [<doc._rev>] }]. *)
Definition purge_body (d : json) : json :=
  JObj [(property_key (member "_id" d), JArr [element (member "_rev" d)])].

Definition purge_request (d : json) : options :=
  let postData := JSON_stringify (purge_body d) in
  {| hostname := None; port := None; auth := None;
     path := "/_purge"; method := "POST";
     headers := [("Content-Type", JStr "application/json");
                 ("Content-Length", JNum (Z.of_nat (String.length postData)))];
     body := Some postData |}.

(** [purgeDoc]: reading [doc._id] of [null] throws inside the first [then];
    the last [catch] turns every rejection into a fulfilled promise. *)
Definition purgeDoc (id : string) (st : state) : promise unit * state :=
  match getDoc apiHost user pass dbName apiPort server id st with
  | (Fulfilled JNull, st1) => (Fulfilled tt, st1)
  | (Fulfilled d, st1) =>
      let '(_, st2) := requestOnTestDb (purge_request d) st1 in
      (Fulfilled tt, st2)
  | (Rejected, st1) => (Fulfilled tt, st1)
  end.

(** A request as [request] sends it: with the environment's host, port and
    credentials. *)
Definition stamped (o : options) : Prop :=
  hostname o = Some apiHost /\ port o = Some apiPort
  /\ auth o = Some (user +:+ ":" +:+ pass).

(** From one state to a later one: the requests sent in between are added
    to the log, each with the environment's host, port and credentials. *)
Definition grows (st st' : state) : Prop :=
  exists new, requests st' = requests st ++ new /\ Forall stamped new.

End Calls.
End HelperMore.

(** ** The provisioning widget's plugin (the first document of
    [rdtoolkit-provisioning.js]) *)

Module Widget.

(** The [options] argument of the plugin, by what the plugin looks at. *)
Inductive plugin_options : Type :=
| OFalsy                    (* [undefined], [null], [0], [false], the empty string *)
| OObject                   (* an object or an array *)
| OString (name : string)   (* a string *)
| OOther.                   (* another truthy value: a number, [true], a function *)

(** [options = options || {}]. *)
Definition defaulted (o : plugin_options) : plugin_options :=
  match o with
  | OFalsy => OObject
  | OString name => if String.eqb name "" then OObject else OString name
  | other => other
  end.

(** An element of the selection: its id, and the widget the plugin stored
    with [$this.data(pluginName, ..)], with the options it was built
    with. *)
Record element : Type := {
  el : nat;
  data : option plugin_options;
}.

(** An element without a widget. *)
Definition bare (e : element) : bool :=
  match data e with
  | None => true
  | Some _ => false
  end.

Inductive effect : Type :=
| Constructed (e : nat)                 (* [new Rdtoolkitprovisioningwidget(this, options, event)] *)
| Called (name : string) (e : nat).     (* [data[options](this)] *)

Section Plugin.
(** Whether the widget has a method of that name; calling a name that is
    not a method throws. *)
Variable has_method : string -> bool.

(** The function passed to [this.each], on one element: the element after
    it and what was done, or a throw. *)
Definition each_element (o : plugin_options) (e : element)
    : option (element * list effect) :=
  match data e, defaulted o with
  | None, OObject => Some ({| el := el e; data := Some OObject |}, [Constructed (el e)])
  | Some w, OString name =>
      if has_method name then Some (e, [Called name (el e)]) else None
  | _, _ => Some (e, [])
  end.

(** [$.fn[pluginName]]: the elements in order, stopping at a throw (the
    elements after it are left as they were). *)
Fixpoint plugin (o : plugin_options) (es : list element)
    : list element * list effect * bool :=
  match es with
  | [] => ([], [], false)
  | e :: es' =>
      match each_element o e with
      | Some (e', fx) =>
          let '(es'', fx', threw) := plugin o es' in (e' :: es'', fx ++ fx', threw)
      | None => (e :: es', [], true)
      end
  end.
End Plugin.
End Widget.

(** A handler that runs the controller of that name. *)
Definition is_controller (name : string) (m : mw) : bool :=
  match m with
  | Controller n => String.eqb n name
  | _ => false
  end.

(** On this route the controller, if it is there, stands behind the
    firewall handler. *)
Definition guards (name : string) (hs : list mw) : bool :=
  match hs with
  | OfflineUserFirewall :: _ => true
  | _ => forallb (fun m => negb (is_controller name m)) hs
  end.

(** * Properties *)

(** ** Path patterns *)

(** *** The matcher agrees with the usual reading of the operators *)



Lemma matches_Alt r s w : matches (Alt r s) w = matches r w || matches s w.
Proof. revert r s. induction w as [|a w IH]; intros r s; simpl; auto. Qed.

Lemma matches_Cat_intro r s w1 w2 :
  matches r w1 = true -> matches s w2 = true -> matches (Cat r s) (w1 ++ w2) = true.
Proof.
  revert r. induction w1 as [|a w1 IH]; intros r Hr Hs; simpl in *.
  - destruct w2 as [|b w2]; simpl in *.
    + now rewrite Hr, Hs.
    + rewrite Hr, matches_Alt, Hs. apply orb_true_r.
  - destruct (nullable r).
    + rewrite matches_Alt, (IH _ Hr Hs). reflexivity.
    + apply IH; assumption.
Qed.


(** A pattern extended by an optional tail still accepts what it accepted. *)
Lemma matches_Cat_nullable r s w :
  matches r w = true -> nullable s = true -> matches (Cat r s) w = true.
Proof.
  intros Hr Hs. rewrite <- (app_nil_r w). apply matches_Cat_intro; auto.
Qed.




(** ** The router *)

Lemma passes_app tr1 tr2 : passes (tr1 ++ tr2) = passes tr1 + passes tr2.
Proof. induction tr1 as [|ev tr1 IH]; simpl; [reflexivity|]. rewrite IH. lia. Qed.

Section GatewayFacts.
Variable db ddoc : string.
Variable body_parser : parser -> request -> option Z.
Variable controller : string -> request -> ctl_result.
Variable auth_check : string -> request -> bool.

Local Abbreviation run_mw := (run_mw db body_parser controller auth_check).
Local Abbreviation run_chain := (run_chain db body_parser controller auth_check).
Local Abbreviation handle := (handle db body_parser controller auth_check).
Local Abbreviation dispatch := (dispatch db body_parser controller auth_check).

Ltac mw_cases :=
  repeat match goal with
    | |- context [match ?x with _ => _ end] => destruct x eqn:?
    | H : context [match ?x with _ => _ end] |- _ => destruct x eqn:?
    end.

Lemma mw_frame m r r' :
  goes_on (run_mw m r) = Some r' ->
  userCtx r' = userCtx r /\
  (sets_flag m = false -> authorized r' = authorized r) /\
  (authorized r = true -> authorized r' = true).
Proof.
  induction m; simpl;
    unfold infodoc_mark, offlineUserFirewall, onlineUserPassThrough,
      onlineUserProxy, getUserSettings, setAuthorized, canEdit, rewriteMetaUrl;
    try (intros H; mw_cases; simpl in H; inversion H; subst; simpl;
         repeat split; auto; discriminate).
  intros H. destruct (json_content_type r); [auto | discriminate].
Qed.

Lemma mw_firewall_error m r :
  run_mw m r = Respond FirewallError ->
  isOnline (userCtx r) = false /\ authorized r = false.
Proof.
  induction m; simpl;
    unfold infodoc_mark, offlineUserFirewall, onlineUserPassThrough,
      onlineUserProxy, getUserSettings, setAuthorized, canEdit, rewriteMetaUrl;
    try (intros H; mw_cases; try discriminate;
         match goal with
         | E : _ || _ = false |- _ => apply orb_false_iff in E; exact E
         end).
  intros H. destruct (json_content_type r); [auto | discriminate].
Qed.

(** *** One route *)

Lemma chain_frame hs : forall r tr r',
  run_chain hs r = (tr, inl r') ->
  userCtx r' = userCtx r /\
  (forallb (fun m => negb (sets_flag m)) hs = true -> authorized r' = authorized r) /\
  (authorized r = true -> authorized r' = true).
Proof.
  induction hs as [|h hs IH]; intros r tr r' H; simpl in H.
  - inversion H; subst. auto.
  - destruct (run_mw h r) as [r1|r1|x] eqn:E.
    + destruct (run_chain hs r1) as [tr1 o1] eqn:E1. inversion H; subst.
      destruct (IH _ _ _ E1) as (Hc & Hf & Hm).
      destruct (mw_frame h r r1) as (Hc' & Hf' & Hm'); [now rewrite E|].
      split; [congruence|]. split.
      * simpl. intros Hall. apply andb_true_iff in Hall as [Hh Hall].
        apply negb_true_iff in Hh. rewrite (Hf Hall). auto.
      * auto.
    + inversion H; subst.
      destruct (mw_frame h r r') as (Hc' & Hf' & Hm'); [now rewrite E|].
      split; [congruence|]. split; [|auto].
      simpl. intros Hall. apply andb_true_iff in Hall as [Hh _].
      apply negb_true_iff in Hh. auto.
    + inversion H.
Qed.

(** The flag goes from unset to set only where [setAuthorized] ran. *)
Lemma chain_flag_set hs : forall r tr r',
  run_chain hs r = (tr, inl r') ->
  forallb flag_plain hs = true ->
  authorized r = false -> authorized r' = true ->
  In (SetAuthorized, Continued) tr.
Proof.
  induction hs as [|h hs IH]; intros r tr r' H Hp Hr Hr'; simpl in H.
  - inversion H; subst. congruence.
  - simpl in Hp. apply andb_true_iff in Hp as [Hh Hp].
    destruct (run_mw h r) as [r1|r1|x] eqn:E.
    + destruct (run_chain hs r1) as [tr1 o1] eqn:E1. inversion H; subst.
      destruct (authorized r1) eqn:A1.
      * left. destruct (mw_frame h r r1) as (_ & Hf & _); [now rewrite E|].
        destruct h; simpl in *; try (rewrite Hf in A1; [congruence|reflexivity]).
        -- reflexivity.
        -- apply negb_true_iff in Hh. rewrite Hf in A1; congruence.
      * right. eapply IH; eauto.
    + inversion H; subst.
      destruct (mw_frame h r r') as (_ & Hf & _); [now rewrite E|].
      destruct h; simpl in *; try (rewrite Hf in Hr'; [congruence|reflexivity]).
      * unfold setAuthorized in E. discriminate.
      * apply negb_true_iff in Hh. rewrite Hf in Hr'; congruence.
    + inversion H.
Qed.

(** An offline request without the flag gets past no firewall on a route
    that cannot set the flag. *)
Lemma chain_blocked hs : forall r tr o,
  run_chain hs r = (tr, o) ->
  forallb (fun m => negb (sets_flag m)) hs = true ->
  isOnline (userCtx r) = false -> authorized r = false ->
  passes tr = 0.
Proof.
  induction hs as [|h hs IH]; intros r tr o H Hall Hu Ha; simpl in H.
  - inversion H; reflexivity.
  - simpl in Hall. apply andb_true_iff in Hall as [Hh Hall].
    apply negb_true_iff in Hh.
    destruct (run_mw h r) as [r1|r1|x] eqn:E.
    + destruct (run_chain hs r1) as [tr1 o1] eqn:E1. inversion H; subst.
      destruct (mw_frame h r r1) as (Hc & Hf & _); [now rewrite E|].
      simpl. rewrite (IH _ _ _ E1 Hall); [| congruence | rewrite Hf; auto].
      destruct h; simpl; try reflexivity.
      simpl in E. unfold offlineUserFirewall in E. rewrite Hu, Ha in E.
      discriminate.
    + inversion H; subst. simpl. destruct h; reflexivity.
    + inversion H; subst. simpl. destruct h; reflexivity.
Qed.

Lemma chain_no_firewall hs : forall r tr o,
  run_chain hs r = (tr, o) ->
  forallb (fun m => negb (is_firewall m)) hs = true ->
  passes tr = 0.
Proof.
  induction hs as [|h hs IH]; intros r tr o H Hall; simpl in H.
  - inversion H; reflexivity.
  - simpl in Hall. apply andb_true_iff in Hall as [Hh Hall].
    destruct (run_mw h r) as [r1|r1|x] eqn:E.
    + destruct (run_chain hs r1) as [tr1 o1] eqn:E1. inversion H; subst.
      simpl. rewrite (IH _ _ _ E1 Hall). destruct h; simpl in *; congruence.
    + inversion H; subst. simpl. destruct h; reflexivity.
    + inversion H; subst. simpl. destruct h; reflexivity.
Qed.

Lemma chain_not_firewall_error hs : forall r tr x,
  run_chain hs r = (tr, inr x) ->
  isOnline (userCtx r) = true -> x <> FirewallError.
Proof.
  induction hs as [|h hs IH]; intros r tr x H Hu; simpl in H.
  - inversion H.
  - destruct (run_mw h r) as [r1|r1|y] eqn:E.
    + destruct (run_chain hs r1) as [tr1 o1] eqn:E1. inversion H; subst.
      destruct (mw_frame h r r1) as (Hc & _); [now rewrite E|].
      eapply IH; eauto. congruence.
    + inversion H.
    + inversion H; subst. intros ->.
      apply mw_firewall_error in E as [E _]. congruence.
Qed.

(** *** The whole table *)

Lemma handle_app xs ys r :
  handle (xs ++ ys) r =
  match handle xs r with
  | (tr, inl r') => let '(tr', o) := handle ys r' in (tr ++ tr', o)
  | (tr, inr x) => (tr, inr x)
  end.
Proof.
  revert r. induction xs as [|rt xs IH]; intros r; simpl.
  - destruct (handle ys r); reflexivity.
  - destruct (route_matches rt r); [|apply IH].
    destruct (run_chain (chain rt) r) as [tr [r1|x]]; [|reflexivity].
    rewrite IH. destruct (handle xs r1) as [tr1 [r2|x]]; [|reflexivity].
    destruct (handle ys r2) as [tr2 o]. now rewrite app_assoc.
Qed.


Lemma handle_frame rs : forall r tr r',
  handle rs r = (tr, inl r') ->
  userCtx r' = userCtx r /\
  (chains_all (fun m => negb (sets_flag m)) rs = true ->
   authorized r' = authorized r) /\
  (authorized r = true -> authorized r' = true).
Proof.
  induction rs as [|rt rs IH]; intros r tr r' H; simpl in H.
  - inversion H; subst. auto.
  - destruct (route_matches rt r).
    + destruct (run_chain (chain rt) r) as [tr1 [r1|x]] eqn:E; [|inversion H].
      destruct (handle rs r1) as [tr2 o2] eqn:E2. inversion H; subst.
      destruct (chain_frame _ _ _ _ E) as (Hc & Hf & Hm).
      destruct (IH _ _ _ E2) as (Hc' & Hf' & Hm').
      split; [congruence|]. split; [|auto].
      simpl. intros Hall. apply andb_true_iff in Hall as [H1 H2].
      rewrite (Hf' H2). auto.
    + destruct (IH _ _ _ H) as (Hc' & Hf' & Hm').
      split; [auto|]. split; [|auto].
      simpl. intros Hall. apply andb_true_iff in Hall as [_ H2]. auto.
Qed.

Lemma handle_flag_set rs : forall r tr r',
  handle rs r = (tr, inl r') ->
  chains_all flag_plain rs = true ->
  authorized r = false -> authorized r' = true ->
  In (SetAuthorized, Continued) tr.
Proof.
  induction rs as [|rt rs IH]; intros r tr r' H Hp Hr Hr'; simpl in H.
  - inversion H; subst. congruence.
  - simpl in Hp. apply andb_true_iff in Hp as [Hp1 Hp2].
    destruct (route_matches rt r); [|eauto].
    destruct (run_chain (chain rt) r) as [tr1 [r1|x]] eqn:E; [|inversion H].
    destruct (handle rs r1) as [tr2 o2] eqn:E2. inversion H; subst.
    apply in_or_app. destruct (authorized r1) eqn:A1.
    + left. eapply chain_flag_set; eauto.
    + right. eapply IH; eauto.
Qed.

Lemma handle_blocked rs : forall r tr o,
  handle rs r = (tr, o) ->
  chains_all (fun m => negb (sets_flag m)) rs = true ->
  isOnline (userCtx r) = false -> authorized r = false ->
  passes tr = 0.
Proof.
  induction rs as [|rt rs IH]; intros r tr o H Hall Hu Ha; simpl in H.
  - inversion H; reflexivity.
  - simpl in Hall. apply andb_true_iff in Hall as [H1 H2].
    destruct (route_matches rt r); [|eauto].
    destruct (run_chain (chain rt) r) as [tr1 [r1|x]] eqn:E.
    + destruct (handle rs r1) as [tr2 o2] eqn:E2. inversion H; subst.
      destruct (chain_frame _ _ _ _ E) as (Hc & Hf & _).
      rewrite passes_app, (chain_blocked _ _ _ _ E H1 Hu Ha). simpl.
      apply (IH _ _ _ E2 H2); [congruence | rewrite Hf; auto].
    + inversion H; subst. eapply chain_blocked; eauto.
Qed.

Lemma handle_no_firewall rs : forall r tr o,
  handle rs r = (tr, o) ->
  chains_all (fun m => negb (is_firewall m)) rs = true ->
  passes tr = 0.
Proof.
  induction rs as [|rt rs IH]; intros r tr o H Hall; simpl in H.
  - inversion H; reflexivity.
  - simpl in Hall. apply andb_true_iff in Hall as [H1 H2].
    destruct (route_matches rt r); [|eauto].
    destruct (run_chain (chain rt) r) as [tr1 [r1|x]] eqn:E.
    + destruct (handle rs r1) as [tr2 o2] eqn:E2. inversion H; subst.
      rewrite passes_app, (chain_no_firewall _ _ _ _ E H1). eauto.
    + inversion H; subst. eapply chain_no_firewall; eauto.
Qed.

Lemma handle_not_firewall_error rs : forall r tr x,
  handle rs r = (tr, inr x) ->
  isOnline (userCtx r) = true -> x <> FirewallError.
Proof.
  induction rs as [|rt rs IH]; intros r tr x H Hu; simpl in H.
  - inversion H.
  - destruct (route_matches rt r); [|eauto].
    destruct (run_chain (chain rt) r) as [tr1 [r1|y]] eqn:E.
    + destruct (handle rs r1) as [tr2 o2] eqn:E2. inversion H; subst.
      destruct (chain_frame _ _ _ _ E) as (Hc & _).
      eapply IH; eauto. congruence.
    + inversion H; subst. eapply chain_not_firewall_error; eauto.
Qed.

Lemma absent_app P tr1 tr2 : absent P (tr1 ++ tr2) = absent P tr1 && absent P tr2.
Proof. apply forallb_app. Qed.

Lemma absent_not_in tr s : absent is_canEdit tr = true -> ~ In (CanEdit, s) tr.
Proof.
  intros H Hin. unfold absent in H. rewrite forallb_forall in H.
  specialize (H _ Hin). discriminate.
Qed.

Lemma chain_absent P hs : forall r tr o,
  run_chain hs r = (tr, o) ->
  forallb (fun m => negb (P m)) hs = true -> absent P tr = true.
Proof.
  induction hs as [|h hs IH]; intros r tr o H Hall; simpl in H.
  - inversion H; reflexivity.
  - simpl in Hall. apply andb_true_iff in Hall as [Hh Hall].
    destruct (run_mw h r) as [r1|r1|x] eqn:E.
    + destruct (run_chain hs r1) as [tr1 o1] eqn:E1. inversion H; subst.
      unfold absent. simpl. rewrite Hh. apply (IH _ _ _ E1 Hall).
    + inversion H; subst. unfold absent. simpl. now rewrite Hh.
    + inversion H; subst. unfold absent. simpl. now rewrite Hh.
Qed.

Lemma handle_absent P rs : forall r tr o,
  handle rs r = (tr, o) ->
  chains_all (fun m => negb (P m)) rs = true -> absent P tr = true.
Proof.
  induction rs as [|rt rs IH]; intros r tr o H Hall; simpl in H.
  - inversion H; reflexivity.
  - simpl in Hall. apply andb_true_iff in Hall as [H1 H2].
    destruct (route_matches rt r); [|eauto].
    destruct (run_chain (chain rt) r) as [tr1 [r1|x]] eqn:E.
    + destruct (handle rs r1) as [tr2 o2] eqn:E2. inversion H; subst.
      rewrite absent_app, (chain_absent _ _ _ _ _ E H1). simpl. eauto.
    + inversion H; subst. eapply chain_absent; eauto.
Qed.



Lemma routes_split :
  routes db ddoc =
  (online_only_routes db ++ session_route :: unaudited_routes db ++ api_routes db ddoc)
    ++ store_routes db ddoc ++ firewall_route :: proxied_routes db.
Proof. reflexivity. Qed.

Lemma firewall_decision q :
  offlineUserFirewall q = Next q <->
  isOnline (userCtx q) = true \/ authorized q = true.
Proof.
  unfold offlineUserFirewall. split.
  - destruct (isOnline (userCtx q)), (authorized q); simpl; auto; discriminate.
  - intros [-> | ->]; [reflexivity | now rewrite orb_true_r].
Qed.

(** On each audited write route: an online request leaves the route at
    [onlineUserPassThrough] without the flag; an offline request leaves it
    with the flag exactly when the write handler called [next()], the flag
    being set right after; a request answered on the route never had the
    flag set. *)
Lemma audited_chain rt r :
  In rt (audited_write_routes db) -> authorized r = false ->
  match run_chain (chain rt) r with
  | (tr, inl r') =>
      if isOnline (userCtx r)
      then authorized r' = false /\ In (OnlineUserPassThrough, Skipped) tr
      else authorized r' = true /\
           exists tr0 h,
             tr = tr0 ++ [(Controller h, Continued); (SetAuthorized, Continued)]
  | (tr, inr x) => ~ In (SetAuthorized, Continued) tr
  end.
Proof.
  intros Hin Ha. simpl in Hin.
  assert (Hno : forall (e1 e2 : event), e1 <> e2 -> ~ (e1 = e2 \/ False)) by tauto.
  destruct Hin as [<-|[<-|[<-|[<-|[<-|[]]]]]]; simpl;
    unfold infodoc_mark, onlineUserPassThrough, getUserSettings, setAuthorized;
    simpl;
    repeat match goal with
      | |- context [body_parser ?p ?q] => destruct (body_parser p q) eqn:?; simpl
      | |- context [controller ?n ?q] => destruct (controller n q) eqn:?; simpl
      | |- context [isOnline ?c] => destruct (isOnline c) eqn:?; simpl
      end;
    try (split; [assumption | tauto]);
    try (split; [reflexivity|];
         match goal with
         | |- exists tr0 h, ?a :: ?b :: ?c :: ?d :: ?e :: ?f = _ =>
             exists [a; b; c; d], "dbDoc.request"
         | |- exists tr0 h, ?a :: ?b :: ?c :: ?e :: ?f = _ =>
             exists [a; b], "dbDoc.request"
         end; reflexivity);
    try (split; [reflexivity|];
         match goal with
         | |- exists tr0 h, ?a :: ?b :: ?c :: ?d :: ?e :: ?f = _ =>
             exists [a; b; c; d], "bulkDocs.request"
         end; reflexivity);
    intros H; repeat (destruct H as [H|H]; [discriminate H|]); exact H.
Qed.

(** An offline request gets past a firewall handler at most once, and only
    after [setAuthorized] ran on it; when it gets to [canEdit], it did so
    exactly once. *)
Lemma offline_passes_once r :
  isOnline (userCtx r) = false -> authorized r = false ->
  passes (fst (dispatch (routes db ddoc) r)) <= 1 /\
  (passes (fst (dispatch (routes db ddoc) r)) = 1 ->
   exists tr1 tr2,
     fst (dispatch (routes db ddoc) r) = tr1 ++ (OfflineUserFirewall, Continued) :: tr2 /\
     In (SetAuthorized, Continued) tr1) /\
  (forall s, In (CanEdit, s) (fst (dispatch (routes db ddoc) r)) ->
             passes (fst (dispatch (routes db ddoc) r)) = 1).
Proof.
  intros Hu Ha.
  set (A := online_only_routes db ++ session_route :: unaudited_routes db
              ++ api_routes db ddoc).
  assert (HA : chains_all (fun m => negb (sets_flag m)) A = true) by reflexivity.
  assert (HAe : chains_all (fun m => negb (is_canEdit m)) A = true) by reflexivity.
  assert (HB : chains_all (fun m => negb (is_firewall m)) (store_routes db ddoc) = true)
    by reflexivity.
  assert (HBp : chains_all flag_plain (store_routes db ddoc) = true) by reflexivity.
  assert (HBe : chains_all (fun m => negb (is_canEdit m)) (store_routes db ddoc) = true)
    by reflexivity.
  assert (HC : chains_all (fun m => negb (is_firewall m)) (proxied_routes db) = true)
    by reflexivity.
  unfold dispatch. rewrite routes_split. fold A. rewrite handle_app.
  destruct (handle A r) as [trA [rA|x]] eqn:EA.
  2:{ simpl. rewrite (handle_blocked _ _ _ _ EA HA Hu Ha).
      split; [lia|]. split; [discriminate|].
      intros s Hs. now apply (absent_not_in _ _ (handle_absent _ _ _ _ _ EA HAe)) in Hs. }
  pose proof (handle_blocked _ _ _ _ EA HA Hu Ha) as PA.
  pose proof (handle_absent _ _ _ _ _ EA HAe) as NA.
  destruct (handle_frame _ _ _ _ EA) as (HcA & HfA & _).
  specialize (HfA HA). rewrite Ha in HfA.
  rewrite handle_app.
  destruct (handle (store_routes db ddoc) rA) as [trB [rB|x]] eqn:EB.
  2:{ simpl. rewrite passes_app, PA, (handle_no_firewall _ _ _ _ EB HB).
      split; [lia|]. split; [discriminate|].
      intros s Hs. apply in_app_or in Hs as [Hs|Hs].
      - now apply (absent_not_in _ _ NA) in Hs.
      - now apply (absent_not_in _ _ (handle_absent _ _ _ _ _ EB HBe)) in Hs. }
  pose proof (handle_no_firewall _ _ _ _ EB HB) as PB.
  pose proof (handle_absent _ _ _ _ _ EB HBe) as NB.
  destruct (handle_frame _ _ _ _ EB) as (HcB & _).
  cbn [handle route_matches firewall_route rverb rpath chain handles
       pattern_matches andb run_chain run_mw].
  unfold offlineUserFirewall. rewrite HcB, HcA, Hu. simpl orb.
  destruct (authorized rB) eqn:AB.
  - destruct (handle (proxied_routes db) rB) as [trC oC] eqn:EC.
    pose proof (handle_no_firewall _ _ _ _ EC HC) as PC.
    assert (Htr : forall o : request + response,
               fst (let (tr, o') := (trA ++ trB ++ ((OfflineUserFirewall, Continued) :: []) ++ trC, o)
                    in match o' with inl _ => (tr, NotFound) | inr y => (tr, y) end)
               = (trA ++ trB) ++ (OfflineUserFirewall, Continued) :: trC).
    { intros [?|?]; simpl; now rewrite app_assoc. }
    simpl. simpl in Htr. rewrite Htr.
    assert (P1 : passes ((trA ++ trB) ++ (OfflineUserFirewall, Continued) :: trC) = 1).
    { rewrite !passes_app. simpl. rewrite PA, PB, PC. reflexivity. }
    split; [lia|]. split; [|intros; exact P1].
    intros _. exists (trA ++ trB), trC. split; [reflexivity|].
    apply in_or_app. right. eapply handle_flag_set; eauto.
  - simpl. rewrite !passes_app, PA, PB. simpl.
    split; [lia|]. split; [discriminate|].
    intros s Hs. apply in_app_or in Hs as [Hs|Hs].
    + now apply (absent_not_in _ _ NA) in Hs.
    + apply in_app_or in Hs as [Hs|Hs].
      * now apply (absent_not_in _ _ NB) in Hs.
      * destruct Hs as [Hs|[]]. discriminate.
Qed.


(** C2: a write on an audited endpoint gets past the firewall exactly when
    the user is online or the request carries the authorized flag; on the
    audited write routes the flag is set by [setAuthorized] right after the
    write handler called [next()], and never on a request the route answered;
    an offline request gets past a firewall handler at most once, and then
    [setAuthorized] ran before; an offline write that gets to [canEdit] got
    past the firewall exactly once. *)
Theorem write_audited_firewall (m : method) (p : string) (ct : option string)
    (u : UserContext) :
  let r := incoming m p ct u in
  (forall q, offlineUserFirewall q = Next q <->
             isOnline (userCtx q) = true \/ authorized q = true)
  /\ (forall rt, In rt (audited_write_routes db) ->
        match run_chain (chain rt) r with
        | (tr, inl r') =>
            if isOnline u
            then authorized r' = false /\ In (OnlineUserPassThrough, Skipped) tr
            else authorized r' = true /\
                 exists tr0 h,
                   tr = tr0 ++ [(Controller h, Continued); (SetAuthorized, Continued)]
        | (tr, inr x) => ~ In (SetAuthorized, Continued) tr
        end)
  /\ (isOnline u = false ->
        passes (fst (dispatch (routes db ddoc) r)) <= 1 /\
        (passes (fst (dispatch (routes db ddoc) r)) = 1 ->
         exists tr1 tr2,
           fst (dispatch (routes db ddoc) r)
             = tr1 ++ (OfflineUserFirewall, Continued) :: tr2 /\
           In (SetAuthorized, Continued) tr1) /\
        (forall s, In (CanEdit, s) (fst (dispatch (routes db ddoc) r)) ->
                   passes (fst (dispatch (routes db ddoc) r)) = 1)).
Proof.
  intros r. split; [exact firewall_decision|]. split.
  - intros rt Hin. apply (audited_chain rt r Hin). reflexivity.
  - intros Hu. apply offline_passes_once; [exact Hu | reflexivity].
Qed.




(** C7: on a route registered through [handleJsonRequest], a request whose
    Content-Type is absent or is not exactly [application/json] is answered
    with an error before the callback runs: the 400 error of the guard when
    the JSON parser let the request on, the parser's own error otherwise.
    The answer does not involve the store and is the same whatever the
    callback. *)
Theorem json_request_guard (v : verb) (p : list re) (callback : mw) (r : request) :
  content_type r <> Some "application/json" ->
  exists x,
    snd (run_chain (chain (handleJsonRequest v p callback)) r) = inr x
    /\ reaches_store x = false
    /\ (body_parser jsonParser r = None ->
        x = Error (Some 400%Z) "Content-Type must be application/json")
    /\ (forall c, body_parser jsonParser r = Some c -> x = ParserError jsonParser c)
    /\ (forall callback',
          snd (run_chain (chain (handleJsonRequest v p callback')) r) = inr x).
Proof.
  intros Hct.
  assert (Hj : json_content_type r = false).
  { unfold json_content_type. destruct (content_type r) as [s|]; [|reflexivity].
    destruct (String.eqb_spec s "application/json") as [->|Hne];
      [congruence | apply andb_false_r]. }
  simpl. destruct (body_parser jsonParser r) as [c|] eqn:E; simpl.
  - exists (ParserError jsonParser c).
    split; [reflexivity|]. split; [reflexivity|]. split; [discriminate|].
    split; [|reflexivity]. intros c' [= ->]. reflexivity.
  - rewrite Hj. simpl. eexists.
    split; [reflexivity|]. split; [reflexivity|]. split; [reflexivity|].
    split; [discriminate | reflexivity].
Qed.

End GatewayFacts.

(** ** Audit records *)

Lemma stamp_lookup now who (st : gmap string AuditRecord) id k :
  stamp now who st id !! k =
  if decide (id = k)
  then Some {| docId := id;
               initialReplicationDate := from_option initialReplicationDate now (st !! id);
               latestWriteDate := now; writerIdentity := who |}
  else st !! k.
Proof.
  unfold stamp. destruct (st !! id) eqn:E; rewrite lookup_insert;
    case_decide; reflexivity.
Qed.

Lemma foldl_stamp_lookup now who ids : forall (st : gmap string AuditRecord) k,
  foldl (stamp now who) st ids !! k =
  if bool_decide (elem_of k ids)
  then Some {| docId := k;
               initialReplicationDate := from_option initialReplicationDate now (st !! k);
               latestWriteDate := now; writerIdentity := who |}
  else st !! k.
Proof.
  induction ids as [|x ids IH]; intros st k; simpl foldl.
  - rewrite bool_decide_eq_false_2; [reflexivity | apply not_elem_of_nil].
  - rewrite IH, stamp_lookup. destruct (decide (elem_of k ids)) as [Hin|Hin].
    + rewrite !bool_decide_eq_true_2;
        [| apply elem_of_cons; right; exact Hin | exact Hin].
      destruct (decide (x = k)) as [->|]; reflexivity.
    + rewrite (bool_decide_eq_false_2 _ Hin).
      destruct (decide (x = k)) as [->|Hne].
      * rewrite bool_decide_eq_true_2; [reflexivity | apply elem_of_cons; auto].
      * rewrite bool_decide_eq_false_2; [reflexivity|].
        intros [?|?]%elem_of_cons; [congruence | tauto].
Qed.

Section AuditFacts.
Variable db ddoc : string.
Variable body_parser : parser -> request -> option Z.
Variable controller : string -> request -> ctl_result.
Variable auth_check : string -> request -> bool.

Local Abbreviation run_mw := (run_mw db body_parser controller auth_check).
Local Abbreviation run_chain := (run_chain db body_parser controller auth_check).
Local Abbreviation handle := (handle db body_parser controller auth_check).
Local Abbreviation dispatch := (dispatch db body_parser controller auth_check).

Ltac mw_unfold :=
  unfold infodoc_mark, offlineUserFirewall, onlineUserPassThrough,
    onlineUserProxy, getUserSettings, setAuthorized, canEdit, rewriteMetaUrl.

Ltac mw_split :=
  repeat match goal with
    | H : context [match ?x with _ => _ end] |- _ => destruct x eqn:?
    end.

(** The mark is never taken off a request. *)
Lemma mw_marked m r r' :
  goes_on (run_mw m r) = Some r' ->
  infodoc_marked r = true -> infodoc_marked r' = true.
Proof.
  induction m; simpl; mw_unfold;
    intros H; mw_split; simpl in H; inversion H; subst; simpl; auto; discriminate.
Qed.

(** A proxy forwards the request as the handler received it. *)
Lemma mw_proxied m r p q : run_mw m r = Respond (Proxied p q) -> q = r.
Proof.
  induction m; simpl; mw_unfold;
    try (intros H; mw_split; inversion H; subst; reflexivity).
  intros H. destruct (json_content_type r); [auto | discriminate].
Qed.

Lemma chain_marked hs : forall r tr o,
  run_chain hs r = (tr, o) ->
  infodoc_marked r = true \/ In (InfodocMark, Continued) tr ->
  marked_result o.
Proof.
  induction hs as [|h hs IH]; intros r tr o H Hm; simpl in H.
  - inversion H; subst. destruct Hm as [Hm|[]]. exact Hm.
  - destruct (run_mw h r) as [r1|r1|x] eqn:E.
    + destruct (run_chain hs r1) as [tr1 o1] eqn:E1. inversion H; subst.
      apply (IH _ _ _ E1). destruct Hm as [Hm|[Hm|Hm]].
      * left. apply (mw_marked h r r1); [now rewrite E | exact Hm].
      * left. inversion Hm; subst. simpl in E. unfold infodoc_mark in E.
        inversion E; subst. reflexivity.
      * right. exact Hm.
    + inversion H; subst. destruct Hm as [Hm|[Hm|[]]]; [|inversion Hm].
      apply (mw_marked h r r1); [now rewrite E | exact Hm].
    + inversion H; subst. destruct Hm as [Hm|[Hm|[]]]; [|inversion Hm].
      destruct x; simpl; auto. apply mw_proxied in E. now subst.
Qed.

Lemma handle_marked rs : forall r tr o,
  handle rs r = (tr, o) ->
  infodoc_marked r = true \/ In (InfodocMark, Continued) tr ->
  marked_result o.
Proof.
  induction rs as [|rt rs IH]; intros r tr o H Hm; simpl in H.
  - inversion H; subst. destruct Hm as [Hm|[]]. exact Hm.
  - destruct (route_matches rt r); [|eauto].
    destruct (run_chain (chain rt) r) as [tr1 [r1|x]] eqn:E.
    + destruct (handle rs r1) as [tr2 o2] eqn:E2. inversion H; subst.
      apply (IH _ _ _ E2). destruct Hm as [Hm|Hm].
      * left. apply (chain_marked _ _ _ _ E). auto.
      * apply in_app_or in Hm as [Hm|Hm]; [|auto].
        left. apply (chain_marked _ _ _ _ E). auto.
    + inversion H; subst. apply (chain_marked _ _ _ _ E Hm).
Qed.

(** On the marked write routes, whenever the authorization decision is
    reached the marker has run. *)
Lemma marker_first rt r tr o s :
  In rt (marked_write_routes db) ->
  run_chain (chain rt) r = (tr, o) ->
  In (OnlineUserPassThrough, s) tr ->
  exists tr2,
    tr = [(Parse jsonParser, Continued); (InfodocMark, Continued)]
           ++ (OnlineUserPassThrough, s) :: tr2.
Proof.
  intros Hin. simpl in Hin.
  destruct Hin as [<-|[<-|[<-|[]]]]; simpl; mw_unfold; simpl;
    repeat match goal with
      | |- context [body_parser ?p ?q] => destruct (body_parser p q) eqn:?; simpl
      | |- context [controller ?n ?q] => destruct (controller n q) eqn:?; simpl
      | |- context [isOnline ?c] => destruct (isOnline c) eqn:?; simpl
      end;
    intros H Hi; inversion H; subst; clear H; simpl in Hi;
    repeat (destruct Hi as [Hi|Hi]; [try discriminate Hi|]);
    try contradiction;
    inversion Hi; subst; eexists; reflexivity.
Qed.

(** C6, as amended: on the audited routes that take a document body (POST
    [_bulk_docs], POST on the database, PUT on a document path) the audit
    marker runs before the authorization decision; the mark stays on the
    request up to the proxy; and the audit update on the proxied response of
    a marked request creates the record of each affected document on first
    sight, updates its write date and writer otherwise, and deletes no
    record. *)
Theorem marked_writes_audited (rt : route) (now : Z) (ids : list string)
    (st : gmap string AuditRecord) :
  In rt (marked_write_routes db) ->
  (forall r tr o s,
     run_chain (chain rt) r = (tr, o) -> In (OnlineUserPassThrough, s) tr ->
     exists tr2,
       tr = [(Parse jsonParser, Continued); (InfodocMark, Continued)]
              ++ (OnlineUserPassThrough, s) :: tr2)
  /\ (forall r tr p q,
        dispatch (routes db ddoc) r = (tr, Proxied p q) ->
        In (InfodocMark, Continued) tr -> infodoc_marked q = true)
  /\ (forall p q,
        audits p = true -> infodoc_marked q = true ->
        (forall id, In id ids ->
           on_proxyRes now (Proxied p q) ids st !! id =
           Some {| docId := id;
                   initialReplicationDate :=
                     from_option initialReplicationDate now (st !! id);
                   latestWriteDate := now;
                   writerIdentity := identity (userCtx q) |})
        /\ (forall id, ~ In id ids ->
              on_proxyRes now (Proxied p q) ids st !! id = st !! id)
        /\ (forall id, is_Some (st !! id) ->
              is_Some (on_proxyRes now (Proxied p q) ids st !! id))).
Proof.
  intros Hin. split; [|split].
  - intros r tr o s H Hi. eapply marker_first; eauto.
  - intros r tr p q H Hi. unfold dispatch in H.
    destruct (handle (routes db ddoc) r) as [tr' [r'|x]] eqn:E;
      inversion H; subst.
    apply (handle_marked _ _ _ _ E). auto.
  - intros p q Hp Hq. unfold on_proxyRes, infodoc_update. rewrite Hp, Hq.
    split; [|split]; intros id Hid; rewrite foldl_stamp_lookup.
    + rewrite bool_decide_eq_true_2; [reflexivity | now apply list_elem_of_In].
    + rewrite bool_decide_eq_false_2; [reflexivity | now rewrite list_elem_of_In].
    + destruct (bool_decide (elem_of id ids)); [eexists; reflexivity | exact Hid].
Qed.

End AuditFacts.

(** ** The proxies' listeners *)

Lemma changes_on_data_flushed {A : Type} (emits : list A -> nat) (c : A)
    (s : res_stream A) :
  held (changes_on_data emits c s) = [] /\
  sent (changes_on_data emits c s) = sent s ++ held s ++ [c].
Proof.
  unfold changes_on_data, res_flush, res_write. simpl. split; [reflexivity|].
  now rewrite <- app_assoc, take_drop.
Qed.

Lemma changes_run {A : Type} (emits : list A -> nat) (chunks : list A) :
  forall s : res_stream A,
    held s = [] ->
    held (proxyForChanges_proxyRes emits chunks s) = [] /\
    sent (proxyForChanges_proxyRes emits chunks s) = sent s ++ chunks.
Proof.
  induction chunks as [|c chunks IH]; intros s Hs.
  - simpl. now rewrite app_nil_r.
  - change (proxyForChanges_proxyRes emits (c :: chunks) s)
      with (proxyForChanges_proxyRes emits chunks (changes_on_data emits c s)).
    destruct (changes_on_data_flushed emits c s) as [Hh Hsent].
    destruct (IH _ Hh) as [IH1 IH2]. split; [exact IH1|].
    rewrite IH2, Hsent, Hs. simpl. now rewrite <- app_assoc.
Qed.

(** C4: on the change-feed proxy every chunk from upstream, a heartbeat
    included, is written and then flushed: after each data event nothing is
    held by the compressor, whatever it would have kept back by itself, and
    at whatever point the stream waits for more data all chunks received so
    far have gone out, in order. *)
Theorem changes_feed_flushed {A : Type} (emits : list A -> nat) (chunks : list A)
    (c : A) (s : res_stream A) (n : nat) :
  (held (changes_on_data emits c s) = [] /\
   sent (changes_on_data emits c s) = sent s ++ held s ++ [c])
  /\ held (proxyForChanges_proxyRes emits (take n chunks) fresh_stream) = []
  /\ sent (proxyForChanges_proxyRes emits (take n chunks) fresh_stream) = take n chunks.
Proof.
  split; [apply changes_on_data_flushed|].
  apply (changes_run emits (take n chunks) fresh_stream). reflexivity.
Qed.

(** Without the flush listener a heartbeat can stay with the compressor. *)
Example heartbeat_held_without_flush :
  held (piped_only (fun _ => 0) ["heartbeat"] fresh_stream) = ["heartbeat"].
Proof. reflexivity. Qed.

(** C5: when the bulk-read interceptor is installed, the response has one
    row per row of the upstream body, at the same position: the document
    itself when the caller may see it, a Forbidden stub with its id
    otherwise. *)
Theorem bulk_read_keeps_positions (vs : gmap string string)
    (chunks : list (list doc)) :
  length (proxyForAuth_proxyRes (Some (filterBulkResult vs)) chunks)
    = length (concat chunks)
  /\ forall i d,
       concat chunks !! i = Some d ->
       proxyForAuth_proxyRes (Some (filterBulkResult vs)) chunks !! i
         = Some (if isVisible vs d then Doc d else Stub (doc_id d) Forbidden).
Proof.
  unfold proxyForAuth_proxyRes, filterBulkResult. split.
  - apply length_map.
  - intros i d H. change (map ?f ?l) with (f <$> l).
    now rewrite list_lookup_fmap, H.
Qed.

(** ** The request helper *)

Module HelperFacts.
Import Helper.

Lemma get_set_prop_eq k v props : get_prop k (set_prop k v props) = Some v.
Proof.
  induction props as [|[k' v'] tl IH]; simpl.
  - now rewrite String.eqb_refl.
  - destruct (String.eqb k k') eqn:E; simpl; rewrite E; auto.
Qed.

Lemma get_set_prop_ne k k0 v props :
  k0 <> k -> get_prop k0 (set_prop k v props) = get_prop k0 props.
Proof.
  intros Hne. induction props as [|[k' v'] tl IH]; simpl.
  - apply String.eqb_neq in Hne. now rewrite Hne.
  - destruct (String.eqb_spec k k') as [<-|Hk]; simpl.
    + apply String.eqb_neq in Hne. now rewrite Hne.
    + now rewrite IH.
Qed.

Section CallFacts.
Variables apiHost user pass dbName : string.
Variable apiPort : Z.
Variable server : list options -> options -> promise json.
Variable JSON_stringify : json -> string.

Local Abbreviation request := (request apiHost user pass apiPort server).
Local Abbreviation getDoc := (getDoc apiHost user pass dbName apiPort server).
Local Abbreviation saveDoc :=
  (saveDoc apiHost user pass dbName apiPort server JSON_stringify).
Local Abbreviation deleteDoc :=
  (deleteDoc apiHost user pass dbName apiPort server JSON_stringify).
Local Abbreviation updateSettings :=
  (updateSettings apiHost user pass dbName apiPort server JSON_stringify).
Local Abbreviation revertSettings :=
  (revertSettings apiHost user pass dbName apiPort server JSON_stringify).

(** C8: [updateSettings] throws, sending nothing and leaving the state as it
    is, while [originalSettings] holds a value; [revertSettings] throws when
    it holds none; a [revertSettings] that succeeded leaves [null] in it, so
    that the next [updateSettings] does not throw; and an [updateSettings]
    that fetched the settings holds them, so that another one throws. *)
Theorem settings_single_slot (updates : json) (st : state) :
  (holds (originalSettings st) = true ->
     updateSettings updates st
       = (Threw "A previous test did not call revertSettings", st))
  /\ (holds (originalSettings st) = false ->
     revertSettings st = (Threw "No original settings to revert to", st))
  /\ (forall st',
        revertSettings st = (Returned (Fulfilled tt), st') ->
        originalSettings st' = Some JNull /\
        exists p st'', updateSettings updates st' = (Returned p, st''))
  /\ (forall settings updates',
        holds (originalSettings st) = false ->
        fst (request (app_settings_get dbName) st) = Fulfilled settings ->
        truthy settings = true ->
        originalSettings (snd (updateSettings updates st)) = Some settings /\
        updateSettings updates' (snd (updateSettings updates st))
          = (Threw "A previous test did not call revertSettings",
             snd (updateSettings updates st))).
Proof.
  split; [|split; [|split]].
  - intros H. unfold Helper.updateSettings. now rewrite H.
  - intros H. unfold Helper.revertSettings, holds in *.
    destruct (originalSettings st) as [v|]; [now rewrite H | reflexivity].
  - intros st' H. unfold Helper.revertSettings in H.
    destruct (originalSettings st) as [v|]; [|discriminate].
    destruct (truthy v); [|discriminate].
    destruct (Helper.request _ _ _ _ _ _ st) as [[w|] st1]; [|discriminate].
    inversion H; subst. split; [reflexivity|].
    unfold Helper.updateSettings. simpl.
    destruct (server _ _); simpl; eauto.
  - intros settings updates' Hh Hget Ht.
    assert (E : originalSettings (snd (updateSettings updates st)) = Some settings).
    { unfold Helper.updateSettings. rewrite Hh.
      destruct (Helper.request _ _ _ _ _ (app_settings_get dbName) st)
        as [[w|] st1]; simpl in Hget; [|discriminate].
      inversion Hget; subst. reflexivity. }
    split; [exact E|].
    unfold Helper.updateSettings at 1. unfold holds. now rewrite E, Ht.
Qed.

(** C10: when the fetched document is an object, [deleteDoc] saves that
    object with [_deleted] set to [true]: every other property, [_id] and
    [_rev] among them, reads as it did in the fetched document; the two
    requests sent are the GET of the document and the POST of the marked
    one. *)
Theorem deleteDoc_sets_deleted (id : string) (st : state)
    (props : list (string * json)) :
  fst (getDoc id st) = Fulfilled (JObj props) ->
  deleteDoc id st
    = saveDoc (JObj (set_prop "_deleted" (JBool true) props)) (snd (getDoc id st))
  /\ get_prop "_deleted" (set_prop "_deleted" (JBool true) props) = Some (JBool true)
  /\ (forall k, k <> "_deleted" ->
        get_prop k (set_prop "_deleted" (JBool true) props) = get_prop k props)
  /\ exists fetch save,
       requests (snd (deleteDoc id st)) = requests st ++ [fetch; save]
       /\ method fetch = "GET" /\ path fetch = "/" +:+ dbName +:+ "/" +:+ id
       /\ method save = "POST" /\ path save = "/" +:+ dbName
       /\ body save
          = Some (JSON_stringify (JObj (set_prop "_deleted" (JBool true) props))).
Proof.
  intros H.
  assert (E : deleteDoc id st
              = saveDoc (JObj (set_prop "_deleted" (JBool true) props))
                  (snd (getDoc id st))).
  { unfold Helper.deleteDoc.
    destruct (Helper.getDoc _ _ _ _ _ _ id st) as [[d|] st1]; simpl in H;
      [|discriminate].
    inversion H; subst. reflexivity. }
  split; [exact E|]. split; [apply get_set_prop_eq|].
  split; [intros k Hk; now apply get_set_prop_ne|].
  rewrite E. unfold Helper.saveDoc, Helper.getDoc, Helper.request. simpl.
  eexists _, _. rewrite <- app_assoc. simpl.
  split; [reflexivity|]. repeat split; reflexivity.
Qed.

End CallFacts.
End HelperFacts.

(** * The properties at concrete requests *)



Lemma write_audited_firewall_witness :
  passes (fst (Demo.serve (incoming POST "/medic/_bulk_docs"
                             (Some "application/json") Demo.chw))) = 1.
Proof.
  destruct (write_audited_firewall "medic" "medic" Demo.parsers_ok
              Demo.controllers_next Demo.may_edit POST "/medic/_bulk_docs"
              (Some "application/json") Demo.chw) as (_ & _ & H).
  destruct (H eq_refl) as (_ & _ & H1).
  apply (H1 Ended). vm_compute. auto 10.
Defined.

(** The vetted bulk write of an offline user: marked, authorized by the
    pipeline, then past the firewall once and on to the store. *)
Example offline_bulk_write :
  Demo.serve (incoming POST "/medic/_bulk_docs" (Some "application/json") Demo.chw)
  = ([(Parse jsonParser, Continued); (InfodocMark, Continued);
      (OnlineUserPassThrough, Continued); (Parse jsonQueryParser, Continued);
      (Controller "bulkDocs.request", Continued); (SetAuthorized, Continued);
      (OfflineUserFirewall, Continued); (CanEdit, Ended)],
     Proxied proxyForAuth
       (set_authorized (set_marked
          (incoming POST "/medic/_bulk_docs" (Some "application/json") Demo.chw)))).
Proof. reflexivity. Qed.



(** The unaudited endpoints that are not online-only are proxied for an
    offline user as well. *)
Example offline_local_doc_proxied :
  snd (Demo.serve (incoming GET "/medic/_local/checkpoint" None Demo.chw))
  = Proxied proxy (incoming GET "/medic/_local/checkpoint" None Demo.chw).
Proof. reflexivity. Qed.

Lemma json_request_guard_witness :
  snd (run_chain "medic" Demo.parsers_ok Demo.controllers_next Demo.may_edit
         (chain (postJson [lit "/api/v1/users"] (Controller "users.create")))
         (incoming POST "/api/v1/users" (Some "text/plain") Demo.admin))
  = inr (Error (Some 400%Z) "Content-Type must be application/json").
Proof.
  destruct (json_request_guard "medic" Demo.parsers_ok Demo.controllers_next
              Demo.may_edit Post [lit "/api/v1/users"] (Controller "users.create")
              (incoming POST "/api/v1/users" (Some "text/plain") Demo.admin))
    as (x & E & _ & H & _).
  - discriminate.
  - unfold postJson. rewrite E, H; reflexivity.
Defined.

(** End to end: a JSON write whose content type is not the expected one is
    answered by the guard. *)
Example users_post_text_plain :
  Demo.serve (incoming POST "/api/v1/users" (Some "text/plain") Demo.admin)
  = ([(Parse jsonParser, Continued);
      (JsonChecked (Controller "users.create"), Ended)],
     Error (Some 400%Z) "Content-Type must be application/json").
Proof. reflexivity. Qed.

(** A DELETE on a document path goes through an audited endpoint (the
    pipeline authorizes it and sets the flag) without the audit marker ever
    running: the proxied request is unmarked, and the audit update on its
    response stamps no record for the deleted document. *)
Lemma delete_is_not_marked :
  In (docDelete_route "medic") (audited_write_routes "medic")
  /\ Demo.serve (incoming DELETE "/medic/doc1" None Demo.chw)
     = ([(OnlineUserPassThrough, Continued); (Parse jsonQueryParser, Continued);
         (Controller "dbDoc.request", Continued); (SetAuthorized, Continued);
         (OfflineUserFirewall, Continued); (CanEdit, Ended)],
        Proxied proxyForAuth
          (set_authorized (incoming DELETE "/medic/doc1" None Demo.chw)))
  /\ ~ In (InfodocMark, Continued)
         (fst (Demo.serve (incoming DELETE "/medic/doc1" None Demo.chw)))
  /\ on_proxyRes 7 (snd (Demo.serve (incoming DELETE "/medic/doc1" None Demo.chw)))
       ["doc1"] empty !! "doc1" = None.
Proof.
  split; [simpl; auto 10|]. split; [reflexivity|]. split.
  - intros H. vm_compute in H. repeat (destruct H as [H|H]; [discriminate H|]).
    exact H.
  - reflexivity.
Qed.

Lemma marked_writes_audited_witness :
  on_proxyRes 7
    (Proxied proxyForAuth
       (set_marked (incoming PUT "/medic/doc1" (Some "application/json") Demo.chw)))
    ["doc1"] empty !! "doc1"
  = Some {| docId := "doc1"; initialReplicationDate := 7; latestWriteDate := 7;
            writerIdentity := "chw" |}.
Proof.
  destruct (marked_writes_audited "medic" "medic" Demo.parsers_ok
              Demo.controllers_next Demo.may_edit (docPut_route "medic") 7 ["doc1"]
              empty) as (_ & _ & H).
  - simpl. auto.
  - destruct (H proxyForAuth
                (set_marked (incoming PUT "/medic/doc1" (Some "application/json")
                               Demo.chw)) eq_refl eq_refl) as (H1 & _).
    rewrite H1; [reflexivity | simpl; auto].
Defined.

(** The marked PUT of the same document, for comparison with the DELETE. *)
Example put_is_marked :
  fst (Demo.serve (incoming PUT "/medic/doc1" (Some "application/json") Demo.chw))
  = [(Parse jsonParser, Continued); (InfodocMark, Continued);
     (OnlineUserPassThrough, Continued); (Parse jsonQueryParser, Continued);
     (Controller "dbDoc.request", Continued); (SetAuthorized, Continued);
     (OfflineUserFirewall, Continued); (CanEdit, Ended)].
Proof. reflexivity. Qed.

Lemma bulk_read_keeps_positions_witness :
  proxyForAuth_proxyRes (Some (filterBulkResult sees_a_c)) [[row_a; row_b]; [row_c]] !! 1
  = Some (Stub "b" Forbidden).
Proof.
  destruct (bulk_read_keeps_positions sees_a_c [[row_a; row_b]; [row_c]]) as [_ H].
  rewrite (H 1 row_b eq_refl). reflexivity.
Defined.

(** The example of the specification: keys a, b, c with b out of sight. *)
Example bulk_read_a_b_c :
  proxyForAuth_proxyRes (Some (filterBulkResult sees_a_c)) [[row_a; row_b]; [row_c]]
  = [Doc row_a; Stub "b" Forbidden; Doc row_c].
Proof. reflexivity. Qed.

Lemma settings_single_slot_witness :
  HelperDemo.updateSettings (Helper.JObj []) HelperDemo.updated
    = (Helper.Threw "A previous test did not call revertSettings", HelperDemo.updated)
  /\ HelperDemo.revertSettings HelperDemo.idle
     = (Helper.Threw "No original settings to revert to", HelperDemo.idle).
Proof.
  split.
  - apply (HelperFacts.settings_single_slot "localhost" "admin" "pass" "medic-test"
             5988 HelperDemo.server HelperDemo.stringify (Helper.JObj [])
             HelperDemo.updated).
    reflexivity.
  - apply (HelperFacts.settings_single_slot "localhost" "admin" "pass" "medic-test"
             5988 HelperDemo.server HelperDemo.stringify (Helper.JObj [])
             HelperDemo.idle).
    reflexivity.
Defined.

(** Update, revert, update again: the slot is taken, cleared, taken. *)
Example update_revert_update :
  let st1 := snd (HelperDemo.updateSettings (Helper.JObj []) HelperDemo.idle) in
  let st2 := snd (HelperDemo.revertSettings st1) in
  let st3 := snd (HelperDemo.updateSettings (Helper.JObj []) st2) in
  Helper.originalSettings st1 = Some HelperDemo.stored
  /\ Helper.originalSettings st2 = Some Helper.JNull
  /\ Helper.originalSettings st3 = Some HelperDemo.stored
  /\ length (Helper.requests st3) = 5.
Proof. vm_compute. repeat split. Qed.

Lemma deleteDoc_sets_deleted_witness :
  Helper.get_prop "_rev"
    (Helper.set_prop "_deleted" (Helper.JBool true)
       [("_id", Helper.JStr "doc1"); ("_rev", Helper.JStr "1-abc");
        ("type", Helper.JStr "person")])
  = Some (Helper.JStr "1-abc").
Proof.
  destruct (HelperFacts.deleteDoc_sets_deleted "localhost" "admin" "pass"
              "medic-test" 5988 HelperDemo.server HelperDemo.stringify "doc1"
              HelperDemo.idle
              [("_id", Helper.JStr "doc1"); ("_rev", Helper.JStr "1-abc");
               ("type", Helper.JStr "person")]) as (_ & _ & H & _).
  - reflexivity.
  - rewrite H; [reflexivity | discriminate].
Defined.

(** The document saved by [deleteDoc]: the fetched properties in their
    order, then [_deleted]. *)
Example deleteDoc_appends_deleted :
  Helper.assign_deleted HelperDemo.stored
  = Some (Helper.JObj [("_id", Helper.JStr "doc1"); ("_rev", Helper.JStr "1-abc");
                       ("type", Helper.JStr "person");
                       ("_deleted", Helper.JBool true)]).
Proof. reflexivity. Qed.

(** * Further properties of the routing file and of the helper *)

(** ** Response headers *)

Lemma strip_prefix_app pat tl : strip_prefix pat (pat ++ tl) = Some tl.
Proof.
  induction pat as [|a pat IH]; simpl; [now destruct tl|].
  now rewrite Ascii.eqb_refl.
Qed.

Lemma strip_prefix_Some pat : forall w tl, strip_prefix pat w = Some tl -> w = pat ++ tl.
Proof.
  induction pat as [|a pat IH]; intros w tl H.
  - destruct w; simpl in H; inversion H; reflexivity.
  - destruct w as [|b w]; simpl in H; [discriminate|].
    destruct (Ascii.eqb_spec a b) as [->|]; [|discriminate].
    simpl. f_equal. auto.
Qed.

Lemma contains_iff pat w :
  contains pat w = true <-> exists a b, w = a ++ pat ++ b.
Proof.
  split.
  - induction w as [|c w IH]; cbn [contains].
    + destruct (strip_prefix pat []) as [tl|] eqn:E; [|discriminate].
      intros _. exists [], tl. exact (strip_prefix_Some _ _ _ E).
    + destruct (strip_prefix pat (c :: w)) as [tl|] eqn:E.
      * intros _. exists [], tl. exact (strip_prefix_Some _ _ _ E).
      * intros H. destruct (IH H) as (a & b & ->). exists (c :: a), b. reflexivity.
  - intros (a & b & ->). induction a as [|c a IH].
    + change ([] ++ pat ++ b) with (pat ++ b).
      destruct (pat ++ b) eqn:E; cbn [contains]; rewrite <- E, strip_prefix_app;
        reflexivity.
    + change ((c :: a) ++ pat ++ b) with (c :: a ++ pat ++ b). cbn [contains].
      destruct (strip_prefix pat (c :: a ++ pat ++ b)); [reflexivity | exact IH].
Qed.

Lemma setHeaders_keep (hs : list (string * string)) : forall (h : gmap string string) name,
  is_Some (h !! name) ->
  is_Some (foldl (fun acc kv => setHeader (fst kv) (snd kv) acc) h hs !! name).
Proof.
  induction hs as [|[k v] hs IH]; intros h name H; simpl; [exact H|].
  apply IH. unfold setHeader. rewrite lookup_insert.
  case_decide; [eexists; reflexivity | exact H].
Qed.

Section WriteHeadersFacts.
Variable db ddoc : string.
Variable isClientHuman : bool.
Variable encodeURIComponent : string -> string.
Variable MEDIC_BASIC_AUTH : string.

Local Abbreviation replaced_writeHead :=
  (writeHeaders db isClientHuman encodeURIComponent MEDIC_BASIC_AUTH).
Local Abbreviation proxy_writeHead :=
  (proxyReq_writeHead db ddoc isClientHuman encodeURIComponent MEDIC_BASIC_AUTH).

(** X1: the replaced [writeHead] changes the status code in one case only,
    a 401 for a human client with redirection on, which becomes a 302 whose
    Location is the login page with the encoded URL; a 401 for another
    client carries the basic-auth challenge; and the response always has a
    WWW-Authenticate header. *)
Theorem writeHeaders_status (req_url : string) (headers : option (list (string * string)))
    (redirectHumans : bool) (status : Z) (h : gmap string string) :
  (fst (replaced_writeHead req_url headers redirectHumans status h) <> status ->
     status = 401%Z /\ isClientHuman = true /\ redirectHumans = true
     /\ fst (replaced_writeHead req_url headers redirectHumans status h) = 302%Z
     /\ snd (replaced_writeHead req_url headers redirectHumans status h) !! "location"
        = Some (pathPrefix db +:+ "login?redirect=" +:+ encodeURIComponent req_url))
  /\ (fst (replaced_writeHead req_url headers redirectHumans status h) = 401%Z ->
        isClientHuman = false \/ redirectHumans = false)
  /\ (status = 401%Z -> isClientHuman = false ->
        snd (replaced_writeHead req_url headers redirectHumans status h) !! "www-authenticate"
        = Some MEDIC_BASIC_AUTH)
  /\ is_Some (snd (replaced_writeHead req_url headers redirectHumans status h)
                !! "www-authenticate").
Proof.
  assert (Hc : forall h0 : gmap string string,
             is_Some (match headers with
                      | Some hs =>
                          foldl (fun acc kv => setHeader (fst kv) (snd kv) acc)
                            (setHeader "WWW-Authenticate" "Cookie" h0) hs
                      | None => setHeader "WWW-Authenticate" "Cookie" h0
                      end !! "www-authenticate")).
  { intros h0.
    assert (is_Some (setHeader "WWW-Authenticate" "Cookie" h0 !! "www-authenticate")).
    { unfold setHeader. simpl. rewrite lookup_insert_eq. eexists; reflexivity. }
    destruct headers; [now apply setHeaders_keep | assumption]. }
  unfold writeHeaders.
  destruct (Z.eqb_spec status 401) as [->|Hne]; simpl.
  - destruct isClientHuman, redirectHumans; simpl.
    + split; [intros _; repeat split; unfold setHeader; simpl; apply lookup_insert_eq|].
      split; [discriminate|]. split; [discriminate|].
      unfold setHeader at 1. simpl. rewrite lookup_insert_ne; [apply Hc | discriminate].
    + split; [congruence|]. split; [auto|]. split; [discriminate | apply Hc].
    + split; [congruence|]. split; [auto|].
      split; [intros _ _|]; unfold setHeader at 1; simpl; rewrite lookup_insert_eq;
        [reflexivity | eexists; reflexivity].
    + split; [congruence|]. split; [auto|].
      split; [intros _ _|]; unfold setHeader at 1; simpl; rewrite lookup_insert_eq;
        [reflexivity | eexists; reflexivity].
  - split; [congruence|]. split; [congruence|]. split; [congruence | apply Hc].
Qed.

(** X2: on the main proxy, a 401 from upstream becomes a redirect to the
    login page for a human client exactly when the URL contains the
    application prefix and contains neither [/templates/] nor [/static/];
    for any other client the 401 stays, with the basic-auth challenge. *)
Theorem proxyReq_redirects (req_url : string) (h : gmap string string) :
  (isClientHuman = true ->
     (fst (proxy_writeHead req_url 401%Z h) = 302%Z <->
      (exists a b, path_of req_url = a ++ path_of (appPrefix db ddoc) ++ b)
      /\ (forall a b, path_of req_url <> a ++ path_of "/templates/" ++ b)
      /\ (forall a b, path_of req_url <> a ++ path_of "/static/" ++ b)))
  /\ (isClientHuman = false ->
        fst (proxy_writeHead req_url 401%Z h) = 401%Z
        /\ snd (proxy_writeHead req_url 401%Z h) !! "www-authenticate"
           = Some MEDIC_BASIC_AUTH).
Proof.
  assert (Hnot : forall pat w, contains pat w = false <-> forall a b, w <> a ++ pat ++ b).
  { intros pat w. rewrite <- not_true_iff_false, contains_iff. split.
    - intros H a b E. apply H. eauto.
    - intros H (a & b & E). exact (H a b E). }
  unfold proxyReq_writeHead, staticResources, writeHeaders.
  set (pt := path_of "/templates/"). set (ps := path_of "/static/").
  set (pa := path_of (appPrefix db ddoc)). set (w := path_of req_url).
  clearbody pt ps pa w. split; intros Hh; rewrite Hh.
  - destruct (contains pt w) eqn:Et; destruct (contains ps w) eqn:Es;
    destruct (contains pa w) eqn:Ea;
      simpl; split; try discriminate; try reflexivity;
      try (intros (Ha & Ht & Hs);
           first [ apply Hnot in Ht; congruence
                 | apply Hnot in Hs; congruence
                 | apply contains_iff in Ha; congruence ]).
    intros _. split; [now apply contains_iff|]. split; now apply Hnot.
  - destruct (negb _ && _); simpl; (split; [reflexivity|]);
      unfold setHeader; simpl; apply lookup_insert_eq.
Qed.

End WriteHeadersFacts.

Section CopyHeadersFacts.
Context {V : Type}.
Variable trim : string -> string.

Lemma copy_headers_frame (hs : list (string * option V)) :
  forall (h : gmap string V) name,
    (forall k v, In (k, Some v) hs -> lower_string (trim k) <> name) ->
    foldl (copy_header trim) h hs !! name = h !! name.
Proof.
  induction hs as [|[k [v|]] hs IH]; intros h name H; simpl; [reflexivity| |].
  - rewrite IH; [|intros k' v' Hin; apply (H k' v'); right; exact Hin].
    unfold copy_header, setHeader. simpl.
    rewrite lookup_insert_ne; [reflexivity | apply (H k v); left; reflexivity].
  - apply IH. intros k' v' Hin. apply (H k' v'). right. exact Hin.
Qed.

(** X3: [copyProxyHeaders] leaves a response whose headers were sent as it
    is.  Otherwise it takes the upstream status code, keeps every header no
    defined upstream header names (names compared trimmed, case-blind), and
    gives each upstream name the value of its last defined occurrence; a
    header whose value is undefined changes nothing. *)
Theorem copyProxyHeaders_spec (proxyRes : proxy_head V) (res : res_head V) :
  (headersSent res = true -> copyProxyHeaders trim proxyRes res = res)
  /\ (headersSent res = false ->
        statusCode (copyProxyHeaders trim proxyRes res) = up_statusCode proxyRes
        /\ (forall name,
              (forall k v, In (k, Some v) (up_headers proxyRes) ->
                           lower_string (trim k) <> name) ->
              res_headers (copyProxyHeaders trim proxyRes res) !! name
              = res_headers res !! name)
        /\ (forall hs1 k v hs2,
              up_headers proxyRes = hs1 ++ (k, Some v) :: hs2 ->
              (forall k' v', In (k', Some v') hs2 ->
                             lower_string (trim k') <> lower_string (trim k)) ->
              res_headers (copyProxyHeaders trim proxyRes res) !! lower_string (trim k)
              = Some v)).
Proof.
  unfold copyProxyHeaders. split; intros Hs; rewrite Hs; [reflexivity|]. simpl.
  split; [reflexivity|]. split.
  - intros name H. now apply copy_headers_frame.
  - intros hs1 k v hs2 E H. rewrite E, foldl_app. simpl.
    rewrite copy_headers_frame; [|exact H].
    unfold copy_header at 1, setHeader. simpl. apply lookup_insert_eq.
Qed.

End CopyHeadersFacts.

(** ** More on the router *)

Section RouterMore.
Variable db ddoc : string.
Variable body_parser : parser -> request -> option Z.
Variable controller : string -> request -> ctl_result.
Variable auth_check : string -> request -> bool.

Local Abbreviation run_mw := (run_mw db body_parser controller auth_check).
Local Abbreviation run_chain := (run_chain db body_parser controller auth_check).
Local Abbreviation handle := (handle db body_parser controller auth_check).
Local Abbreviation dispatch := (dispatch db body_parser controller auth_check).

Ltac mw_open :=
  unfold infodoc_mark, offlineUserFirewall, onlineUserPassThrough,
    onlineUserProxy, getUserSettings, setAuthorized, canEdit, rewriteMetaUrl.

Ltac mw_hyp :=
  repeat match goal with
    | H : context [match ?x with _ => _ end] |- _ => destruct x eqn:?
    end.

(** No handler touches the method or the content type. *)
Lemma mw_keeps m r r' :
  goes_on (run_mw m r) = Some r' ->
  req_method r' = req_method r /\ content_type r' = content_type r.
Proof.
  induction m; simpl; mw_open;
    intros H; mw_hyp; simpl in H; inversion H; subst; simpl; auto; discriminate.
Qed.

Lemma chain_keeps hs : forall r tr r',
  run_chain hs r = (tr, inl r') ->
  req_method r' = req_method r /\ content_type r' = content_type r.
Proof.
  induction hs as [|h hs IH]; intros r tr r' H; simpl in H.
  - inversion H; subst. auto.
  - destruct (run_mw h r) as [r1|r1|x] eqn:E.
    + destruct (run_chain hs r1) as [tr1 o1] eqn:E1. inversion H; subst.
      destruct (IH _ _ _ E1) as [-> ->]. apply (mw_keeps h). now rewrite E.
    + inversion H; subst. apply (mw_keeps h). now rewrite E.
    + inversion H.
Qed.

Lemma json_guard_stops callback r :
  content_type r <> Some "application/json" ->
  run_mw (JsonChecked callback) r
  = Respond (Error (Some 400%Z) "Content-Type must be application/json").
Proof.
  intros Hct. simpl. unfold json_content_type.
  destruct (content_type r) as [s|]; [|reflexivity].
  destruct (String.eqb_spec s "application/json") as [->|Hne];
    [congruence | now rewrite andb_false_r].
Qed.

Lemma chain_json_guard hs : forall r tr o callback s,
  content_type r <> Some "application/json" ->
  run_chain hs r = (tr, o) ->
  In (JsonChecked callback, s) tr ->
  s = Ended /\ o = inr (Error (Some 400%Z) "Content-Type must be application/json").
Proof.
  induction hs as [|h hs IH]; intros r tr o callback s Hct H Hin; simpl in H.
  - inversion H; subst. destruct Hin.
  - destruct (run_mw h r) as [r1|r1|x] eqn:E.
    + destruct (run_chain hs r1) as [tr1 o1] eqn:E1. inversion H; subst.
      destruct Hin as [Hin|Hin].
      * inversion Hin; subst. rewrite (json_guard_stops _ _ Hct) in E. discriminate.
      * apply (IH _ _ _ _ _ (eq_ind_r (fun c => c <> _) Hct
                               (proj2 (mw_keeps h r r1 ltac:(now rewrite E)))) E1 Hin).
    + inversion H; subst. destruct Hin as [Hin|[]].
      inversion Hin; subst. rewrite (json_guard_stops _ _ Hct) in E. discriminate.
    + inversion H; subst. destruct Hin as [Hin|[]].
      inversion Hin; subst. rewrite (json_guard_stops _ _ Hct) in E.
      inversion E. auto.
Qed.

(** X4: whatever the routes, when a request whose Content-Type is not
    exactly [application/json] gets to the guard of a route registered
    through [handleJsonRequest], the request ends there: the guard does not
    call the callback and the response is the 400 error. *)
Theorem json_guard_ends_request (rs : list route) (r : request) (tr : list event)
    (x : response) (callback : mw) (s : step) :
  content_type r <> Some "application/json" ->
  dispatch rs r = (tr, x) ->
  In (JsonChecked callback, s) tr ->
  s = Ended /\ x = Error (Some 400%Z) "Content-Type must be application/json".
Proof.
  intros Hct H Hin.
  assert (G : forall rs r tr o,
             content_type r <> Some "application/json" ->
             handle rs r = (tr, o) -> In (JsonChecked callback, s) tr ->
             s = Ended
             /\ o = inr (Error (Some 400%Z) "Content-Type must be application/json")).
  { clear. induction rs as [|rt rs IH]; intros r tr o Hct H Hin; simpl in H.
    - inversion H; subst. destruct Hin.
    - destruct (route_matches rt r); [|eauto].
      destruct (run_chain (chain rt) r) as [tr1 [r1|y]] eqn:E.
      + destruct (handle rs r1) as [tr2 o2] eqn:E2. inversion H; subst.
        apply in_app_or in Hin as [Hin|Hin].
        * destruct (chain_json_guard _ _ _ _ _ _ Hct E Hin) as [_ Ho]. discriminate.
        * assert (Hct1 : content_type r1 <> Some "application/json")
            by (destruct (chain_keeps _ _ _ _ E) as [_ ->]; exact Hct).
          eapply IH; eauto.
      + inversion H; subst. eapply chain_json_guard; eauto. }
  unfold dispatch in H.
  destruct (handle rs r) as [tr' [r'|y]] eqn:E; inversion H; subst;
    destruct (G _ _ _ _ Hct E Hin) as [Hs Ho]; [discriminate|].
  inversion Ho. auto.
Qed.

(** X5: whatever the routes and the path, the response to a request of an
    online user is never the firewall's Forbidden error. *)
Theorem online_never_forbidden (rs : list route) (r : request) :
  isOnline (userCtx r) = true ->
  snd (dispatch rs r) <> FirewallError.
Proof.
  intros Hu. unfold dispatch.
  destruct (handle rs r) as [tr [r'|x]] eqn:E; simpl; [discriminate|].
  eapply handle_not_firewall_error; eauto.
Qed.

(** *** The write proxy *)

Lemma mw_not_for_auth m r q :
  proxies_for_auth m = false -> run_mw m r <> Respond (Proxied proxyForAuth q).
Proof.
  induction m; simpl; mw_open; intros Hp H; mw_hyp; try discriminate;
    try (inversion H; subst; simpl in Hp; discriminate).
  exact (IHm Hp H).
Qed.

Lemma chain_not_for_auth hs : forall r tr q,
  forallb (fun m => negb (proxies_for_auth m)) hs = true ->
  run_chain hs r <> (tr, inr (Proxied proxyForAuth q)).
Proof.
  induction hs as [|h hs IH]; intros r tr q Hall H; simpl in H; [discriminate|].
  simpl in Hall. apply andb_true_iff in Hall as [Hh Hall].
  apply negb_true_iff in Hh.
  destruct (run_mw h r) as [r1|r1|x] eqn:E.
  - destruct (run_chain hs r1) as [tr1 o1] eqn:E1. inversion H; subst.
    exact (IH _ _ _ Hall E1).
  - discriminate.
  - inversion H; subst. exact (mw_not_for_auth _ _ _ Hh E).
Qed.

Lemma handle_not_for_auth rs : forall r tr q,
  chains_all (fun m => negb (proxies_for_auth m)) rs = true ->
  handle rs r <> (tr, inr (Proxied proxyForAuth q)).
Proof.
  induction rs as [|rt rs IH]; intros r tr q Hall H; simpl in H; [discriminate|].
  simpl in Hall. apply andb_true_iff in Hall as [H1 H2].
  destruct (route_matches rt r); [|exact (IH _ _ _ H2 H)].
  destruct (run_chain (chain rt) r) as [tr1 [r1|x]] eqn:E.
  - destruct (handle rs r1) as [tr2 o2] eqn:E2. inversion H; subst.
    exact (IH _ _ _ H2 E2).
  - inversion H; subst. exact (chain_not_for_auth _ _ _ _ H1 E).
Qed.

(** X6: a request is sent to the store through [proxyForAuth] only by
    [canEdit], after the firewall let it through: it is a PUT, POST or
    DELETE, of an online user or carrying the authorized flag, and
    [auth.check] granted [can_edit]. *)
Theorem write_proxy_behind_firewall (r : request) (tr : list event) (q : request) :
  dispatch (routes db ddoc) r = (tr, Proxied proxyForAuth q) ->
  In (OfflineUserFirewall, Continued) tr
  /\ In (CanEdit, Ended) tr
  /\ (isOnline (userCtx q) = true \/ authorized q = true)
  /\ auth_check "can_edit" q = true
  /\ (req_method q = PUT \/ req_method q = POST \/ req_method q = DELETE).
Proof.
  intros H. unfold dispatch, routes in H. rewrite handle_app in H.
  assert (HA : chains_all (fun m => negb (proxies_for_auth m))
                 (classified_routes db ddoc) = true) by reflexivity.
  destruct (handle (classified_routes db ddoc) r) as [trA [rA|x]] eqn:EA.
  2:{ inversion H; subst. now apply handle_not_for_auth in EA. }
  cbn [handle route_matches firewall_route rverb rpath chain handles
       pattern_matches andb run_chain run_mw] in H.
  unfold offlineUserFirewall in H.
  destruct (isOnline (userCtx rA) || authorized rA) eqn:Ef; [|inversion H].
  assert (Hmethod : forall v p, route_matches (on v p [CanEdit]) rA = true ->
                      handles v (req_method rA) = true).
  { intros v p Hm. unfold route_matches in Hm. simpl in Hm.
    now apply andb_true_iff in Hm as [Hm _]. }
  assert (Hfw : forall t, In (OfflineUserFirewall, Continued)
                            (trA ++ [(OfflineUserFirewall, Continued)] ++ t)).
  { intros t. apply in_or_app. right. left. reflexivity. }
  assert (Hce : forall t, In (CanEdit, Ended)
                            (trA ++ [(OfflineUserFirewall, Continued)]
                               ++ t ++ [(CanEdit, Ended)])).
  { intros t. apply in_or_app. right. simpl. right. apply in_or_app. right.
    simpl. auto. }
  unfold proxied_routes, edit_routes in H.
  cbn [app handle chain on run_chain run_mw] in H.
  unfold canEdit in H.
  apply orb_true_iff in Ef.
  destruct (route_matches (on Put (editPath db) [CanEdit]) rA) eqn:M1.
  { destruct (auth_check "can_edit" rA) eqn:Ec; inversion H; subst.
    apply Hmethod in M1. destruct (req_method q); try discriminate.
    split; [apply (Hfw [(CanEdit, Ended)])|]. split; [apply (Hce [])|]. auto. }
  destruct (route_matches (on Post (editPath db) [CanEdit]) rA) eqn:M2.
  { destruct (auth_check "can_edit" rA) eqn:Ec; inversion H; subst.
    apply Hmethod in M2. destruct (req_method q); try discriminate.
    split; [apply (Hfw [(CanEdit, Ended)])|]. split; [apply (Hce [])|]. auto. }
  destruct (route_matches (on Delete (editPath db) [CanEdit]) rA) eqn:M3.
  { destruct (auth_check "can_edit" rA) eqn:Ec; inversion H; subst.
    apply Hmethod in M3. destruct (req_method q); try discriminate.
    split; [apply (Hfw [(CanEdit, Ended)])|]. split; [apply (Hce [])|]. auto 6. }
  unfold catch_all_route, route_matches in H. simpl in H. inversion H.
Qed.

(** *** The audit mark *)

Lemma mw_unmarked m r r' :
  marks m = false -> goes_on (run_mw m r) = Some r' ->
  infodoc_marked r' = infodoc_marked r.
Proof.
  induction m; simpl; mw_open;
    intros Hm H; mw_hyp; simpl in H; inversion H; subst; simpl; auto; discriminate.
Qed.

Lemma chain_unmarked hs : forall r tr o,
  forallb (fun m => negb (marks m)) hs = true ->
  run_chain hs r = (tr, o) ->
  (forall r', o = inl r' -> infodoc_marked r' = infodoc_marked r)
  /\ (forall p q, o = inr (Proxied p q) -> infodoc_marked q = infodoc_marked r).
Proof.
  induction hs as [|h hs IH]; intros r tr o Hall H; simpl in H.
  - inversion H; subst. split; [intros r' [= ->]; reflexivity | discriminate].
  - simpl in Hall. apply andb_true_iff in Hall as [Hh Hall].
    apply negb_true_iff in Hh.
    destruct (run_mw h r) as [r1|r1|x] eqn:E.
    + destruct (run_chain hs r1) as [tr1 o1] eqn:E1. inversion H; subst.
      rewrite <- (mw_unmarked h r r1 Hh) by (now rewrite E). eauto.
    + inversion H; subst. split; [|discriminate].
      intros r' [= ->]. apply (mw_unmarked h); [exact Hh | now rewrite E].
    + inversion H; subst. split; [discriminate|].
      intros p q [= ->]. apply mw_proxied in E. now subst.
Qed.

Lemma handle_unmarked rs : forall r tr o,
  unmarked_for (req_method r) rs = true ->
  handle rs r = (tr, o) ->
  (forall r', o = inl r' -> infodoc_marked r' = infodoc_marked r)
  /\ (forall p q, o = inr (Proxied p q) -> infodoc_marked q = infodoc_marked r).
Proof.
  induction rs as [|rt rs IH]; intros r tr o Hall H; simpl in H.
  - inversion H; subst. split; [intros r' [= ->]; reflexivity | discriminate].
  - simpl in Hall. apply andb_true_iff in Hall as [H1 H2].
    destruct (route_matches rt r) eqn:M; [|eauto].
    unfold route_matches in M. apply andb_true_iff in M as [M _].
    rewrite M in H1. simpl in H1.
    destruct (run_chain (chain rt) r) as [tr1 [r1|x]] eqn:E.
    + destruct (handle rs r1) as [tr2 o2] eqn:E2. inversion H; subst.
      destruct (chain_unmarked _ _ _ _ H1 E) as [Hc _].
      destruct (chain_keeps _ _ _ _ E) as [Hmeth _].
      rewrite <- (Hc r1 eq_refl). apply (IH r1 tr2); [now rewrite Hmeth | exact E2].
    + inversion H; subst. apply (chain_unmarked _ _ _ _ H1 E).
Qed.

(** X7: only a POST or a PUT can be marked for the audit update: the
    request of any other method reaches a proxy with the mark it came
    with. *)
Theorem mark_needs_post_or_put (r : request) (tr : list event) (p : proxy_kind)
    (q : request) :
  req_method r <> POST -> req_method r <> PUT ->
  dispatch (routes db ddoc) r = (tr, Proxied p q) ->
  infodoc_marked q = infodoc_marked r.
Proof.
  intros Hpost Hput H. unfold dispatch in H.
  destruct (handle (routes db ddoc) r) as [tr' [r'|x]] eqn:E; inversion H; subst.
  assert (Hall : unmarked_for (req_method r) (routes db ddoc) = true)
    by (destruct (req_method r); try congruence; reflexivity).
  destruct (handle_unmarked _ _ _ _ Hall E) as [_ Hq]. exact (Hq p q eq_refl).
Qed.

(** *** Controllers behind the firewall *)

Lemma absent_in P tr m s : absent P tr = true -> In (m, s) tr -> P m = false.
Proof.
  intros H Hin. unfold absent in H. rewrite forallb_forall in H.
  specialize (H _ Hin). now apply negb_true_iff in H.
Qed.

Lemma chain_guarded name hs r tr o :
  guards name hs = true ->
  isOnline (userCtx r) = false -> authorized r = false ->
  run_chain hs r = (tr, o) ->
  absent (is_controller name) tr = true.
Proof.
  intros Hg Hu Ha H.
  assert (Hplain : forallb (fun m => negb (is_controller name m)) hs = true ->
                   absent (is_controller name) tr = true)
    by (intros Hall; eapply chain_absent; eauto).
  destruct hs as [|h hs]; [now apply Hplain|].
  destruct h; try (now apply Hplain).
  simpl in H. unfold offlineUserFirewall in H. rewrite Hu, Ha in H.
  inversion H; subst. reflexivity.
Qed.

Lemma handle_guarded name rs : forall r tr o,
  forallb (fun rt => guards name (chain rt)) rs = true ->
  chains_all (fun m => negb (sets_flag m)) rs = true ->
  isOnline (userCtx r) = false -> authorized r = false ->
  handle rs r = (tr, o) ->
  absent (is_controller name) tr = true.
Proof.
  induction rs as [|rt rs IH]; intros r tr o Hg Hf Hu Ha H; simpl in H.
  - inversion H; reflexivity.
  - simpl in Hg, Hf. apply andb_true_iff in Hg as [G1 G2].
    apply andb_true_iff in Hf as [F1 F2].
    destruct (route_matches rt r); [|eauto].
    destruct (run_chain (chain rt) r) as [tr1 [r1|x]] eqn:E.
    + destruct (handle rs r1) as [tr2 o2] eqn:E2. inversion H; subst.
      destruct (chain_frame _ _ _ _ _ _ _ _ E) as (Hc & Hfl & _).
      rewrite absent_app, (chain_guarded _ _ _ _ _ G1 Hu Ha E). simpl.
      apply (IH r1 tr2 o G2 F2); [congruence | rewrite Hfl; auto | exact E2].
    + inversion H; subst. eapply chain_guarded; eauto.
Qed.

(** X8: the hydrate and contacts-by-phone controllers only ever run for an
    online user, whatever the path and the method of the request: on their
    routes they stand behind the firewall handler, and nothing registered
    before those routes sets the authorized flag. *)
Theorem offline_never_hydrates (name : string) (m : method) (p : string)
    (ct : option string) (u : UserContext) (s : step) :
  name = "hydration.hydrate" \/ name = "contactsByPhone.request" ->
  In (Controller name, s) (fst (dispatch (routes db ddoc) (incoming m p ct u))) ->
  isOnline u = true.
Proof.
  intros Hname Hin. destruct (isOnline u) eqn:Hu; [reflexivity|].
  exfalso. unfold dispatch in Hin. rewrite routes_split, handle_app in Hin.
  set (A := online_only_routes db ++ session_route :: unaudited_routes db
              ++ api_routes db ddoc) in *.
  set (B := store_routes db ddoc ++ firewall_route :: proxied_routes db) in *.
  assert (HAf : chains_all (fun m => negb (sets_flag m)) A = true) by reflexivity.
  assert (HAg : forallb (fun rt => guards name (chain rt)) A = true)
    by (destruct Hname as [-> | ->]; reflexivity).
  assert (HB : chains_all (fun m => negb (is_controller name m)) B = true)
    by (destruct Hname as [-> | ->]; reflexivity).
  assert (Hself : is_controller name (Controller name) = true)
    by (simpl; apply String.eqb_refl).
  destruct (handle A (incoming m p ct u)) as [trA [rA|x]] eqn:EA.
  - pose proof (handle_guarded name A (incoming m p ct u) _ _ HAg HAf Hu eq_refl EA)
      as NA.
    destruct (handle B rA) as [trB oB] eqn:EB.
    pose proof (handle_absent _ _ _ _ _ _ _ _ _ EB HB) as NB.
    assert (Hin' : In (Controller name, s) (trA ++ trB))
      by (destruct oB; exact Hin).
    apply in_app_or in Hin' as [Hi|Hi];
      [apply (absent_in _ _ _ _ NA) in Hi | apply (absent_in _ _ _ _ NB) in Hi];
      congruence.
  - pose proof (handle_guarded name A (incoming m p ct u) _ _ HAg HAf Hu eq_refl EA)
      as NA.
    simpl in Hin. apply (absent_in _ _ _ _ NA) in Hin. congruence.
Qed.

End RouterMore.

(** ** More on the request helper *)

Module HelperMoreFacts.
Import Helper HelperMore.


Section CallFacts.
Variables apiHost user pass dbName : string.
Variable apiPort : Z.
Variable server : list options -> options -> promise json.
Variable JSON_stringify : json -> string.
Variable property_key : option json -> string.

Local Abbreviation send := (request apiHost user pass apiPort server).
Local Abbreviation fetch := (getDoc apiHost user pass dbName apiPort server).
Local Abbreviation save :=
  (saveDoc apiHost user pass dbName apiPort server JSON_stringify).
Local Abbreviation delete :=
  (deleteDoc apiHost user pass dbName apiPort server JSON_stringify).
Local Abbreviation update :=
  (updateSettings apiHost user pass dbName apiPort server JSON_stringify).
Local Abbreviation revert :=
  (revertSettings apiHost user pass dbName apiPort server JSON_stringify).
Local Abbreviation onTestDb := (requestOnTestDb apiHost user pass dbName apiPort server).
Local Abbreviation auditDoc := (getAuditDoc apiHost user pass dbName apiPort server).
Local Abbreviation purge :=
  (purgeDoc apiHost user pass dbName apiPort server JSON_stringify property_key).
Local Abbreviation stamped := (stamped apiHost user pass apiPort).
Local Abbreviation grows := (grows apiHost user pass apiPort).

Lemma grows_refl st : grows st st.
Proof. exists []. split; [now rewrite app_nil_r | constructor]. Qed.

Lemma grows_trans st1 st2 st3 : grows st1 st2 -> grows st2 st3 -> grows st1 st3.
Proof.
  intros (n1 & E1 & F1) (n2 & E2 & F2). exists (n1 ++ n2). split.
  - now rewrite E2, E1, app_assoc.
  - apply Forall_app. auto.
Qed.

Lemma grows_request o st : grows st (snd (send o st)).
Proof.
  eexists [_]. split; [reflexivity|]. constructor; [|constructor].
  repeat split.
Qed.

Lemma grows_slot st slot :
  grows st {| originalSettings := slot; requests := requests st |}.
Proof. exists []. split; [simpl; now rewrite app_nil_r | constructor]. Qed.

(** X10: every request any function of the helper sends carries the host,
    the port and the credentials of the environment, whatever the options
    it was given, and no function removes a request from those sent. *)
Theorem requests_stamped (id : string) (o : options) (d updates : json) (st : state) :
  grows st (snd (send o st))
  /\ grows st (snd (onTestDb o st))
  /\ grows st (snd (fetch id st))
  /\ grows st (snd (auditDoc id st))
  /\ grows st (snd (save d st))
  /\ grows st (snd (delete id st))
  /\ grows st (snd (purge id st))
  /\ grows st (snd (update updates st))
  /\ grows st (snd (revert st)).
Proof.
  repeat split; try apply grows_request.
  - unfold deleteDoc. destruct (fetch id st) as [[x|] st1] eqn:E.
    + assert (G : grows st st1) by (change st1 with (snd (Fulfilled x, st1));
        rewrite <- E; apply grows_request).
      destruct (assign_deleted x); [|exact G].
      eapply grows_trans; [exact G | apply grows_request].
    + change st1 with (snd (@Rejected json, st1)). rewrite <- E. apply grows_request.
  - unfold purgeDoc. destruct (fetch id st) as [[x|] st1] eqn:E.
    + assert (G : grows st st1) by (change st1 with (snd (Fulfilled x, st1));
        rewrite <- E; apply grows_request).
      destruct x; try exact G;
        (eapply grows_trans; [exact G|];
         match goal with
         | |- context [requestOnTestDb ?a ?b ?c ?e ?f ?g ?q ?s] =>
             pose proof (grows_request
                           {| hostname := hostname q; port := port q; auth := auth q;
                              path := "/" +:+ dbName +:+ path q; method := method q;
                              headers := headers q; body := body q |} s) as G2;
             unfold requestOnTestDb;
             destruct (send _ s) as [? st2]; exact G2
         end).
    + change st1 with (snd (@Rejected json, st1)). rewrite <- E. apply grows_request.
  - unfold updateSettings. destruct (holds (originalSettings st)); [apply grows_refl|].
    destruct (send (app_settings_get dbName) st) as [[x|] st1] eqn:E.
    + assert (G : grows st st1) by (change st1 with (snd (Fulfilled x, st1));
        rewrite <- E; apply grows_request).
      pose proof (grows_request (update_settings_put dbName JSON_stringify updates)
                    {| originalSettings := Some x; requests := requests st1 |}) as G2.
      destruct (send _ {| originalSettings := Some x; requests := requests st1 |})
        as [p st3].
      eapply grows_trans; [exact G|]. eapply grows_trans; [apply grows_slot | exact G2].
    + change st1 with (snd (@Rejected json, st1)). rewrite <- E. apply grows_request.
  - unfold revertSettings. destruct (originalSettings st) as [v|]; [|apply grows_refl].
    destruct (truthy v); [|apply grows_refl].
    destruct (send (update_settings_put dbName JSON_stringify v) st) as [[x|] st1] eqn:E.
    + assert (G : grows st st1) by (change st1 with (snd (Fulfilled x, st1));
        rewrite <- E; apply grows_request).
      eapply grows_trans; [exact G | apply grows_slot].
    + change st1 with (snd (@Rejected json, st1)). rewrite <- E. apply grows_request.
Qed.

Lemma update_takes_slot updates st settings :
  holds (originalSettings st) = false ->
  fst (send (app_settings_get dbName) st) = Fulfilled settings ->
  originalSettings (snd (update updates st)) = Some settings
  /\ length (requests (snd (update updates st))) = length (requests st) + 2.
Proof.
  intros Hh Hget. unfold updateSettings. rewrite Hh.
  unfold request in *. simpl in *. rewrite Hget. simpl.
  rewrite !length_app. simpl. split; [reflexivity | lia].
Qed.

(** X11: after an [updateSettings] that fetched the settings,
    [revertSettings] sends one request, a PUT to the update path whose body
    is what was fetched; when that request succeeds, [originalSettings] is
    [null]. *)
Theorem revert_sends_fetched (updates : json) (st : state) (settings : json) :
  holds (originalSettings st) = false ->
  fst (send (app_settings_get dbName) st) = Fulfilled settings ->
  truthy settings = true ->
  exists o,
    requests (snd (revert (snd (update updates st))))
      = requests (snd (update updates st)) ++ [o]
    /\ method o = "PUT"
    /\ path o = settings_path dbName "update_settings"
    /\ body o = Some (JSON_stringify settings)
    /\ (fst (revert (snd (update updates st))) = Returned (Fulfilled tt) ->
        originalSettings (snd (revert (snd (update updates st)))) = Some JNull).
Proof.
  intros Hh Hget Ht.
  destruct (update_takes_slot updates st settings Hh Hget) as [E _].
  set (st1 := snd (update updates st)) in *. clearbody st1.
  unfold revertSettings. rewrite E, Ht. unfold request. simpl.
  destruct (server _ _); simpl; eexists; repeat split; discriminate.
Qed.

(** X12: when the fetch of the settings fails, [updateSettings] sends
    nothing more, returns the rejection and leaves [originalSettings] as it
    was; when the fetch succeeds, the fetched settings are held whatever
    becomes of the update request, a rejected one included. *)
Theorem update_failures (updates : json) (st : state) :
  holds (originalSettings st) = false ->
  (fst (send (app_settings_get dbName) st) = Rejected ->
     fst (update updates st) = Returned Rejected
     /\ originalSettings (snd (update updates st)) = originalSettings st
     /\ length (requests (snd (update updates st))) = length (requests st) + 1)
  /\ (forall settings,
        fst (send (app_settings_get dbName) st) = Fulfilled settings ->
        originalSettings (snd (update updates st)) = Some settings
        /\ length (requests (snd (update updates st))) = length (requests st) + 2).
Proof.
  intros Hh. split.
  - intros Hget. unfold updateSettings. rewrite Hh.
    unfold request in *. simpl in *. rewrite Hget. simpl.
    rewrite length_app. simpl. repeat split; lia.
  - intros settings Hget. now apply update_takes_slot.
Qed.

(** X13: when the request of [revertSettings] fails, the rejection is
    returned and [originalSettings] still holds the original settings, so
    that calling [revertSettings] again sends them again. *)
Theorem revert_failure (st : state) (original : json) :
  originalSettings st = Some original -> truthy original = true ->
  fst (send (update_settings_put dbName JSON_stringify original) st) = Rejected ->
  fst (revert st) = Returned Rejected
  /\ originalSettings (snd (revert st)) = Some original
  /\ exists o,
       requests (snd (revert (snd (revert st)))) = requests (snd (revert st)) ++ [o]
       /\ body o = Some (JSON_stringify original).
Proof.
  intros E Ht Hput.
  assert (H1 : revert st
               = (Returned Rejected,
                  snd (send (update_settings_put dbName JSON_stringify original) st))).
  { unfold revertSettings. rewrite E, Ht.
    destruct (send _ st) as [[x|] st1]; simpl in Hput; [discriminate | reflexivity]. }
  rewrite H1. simpl. split; [reflexivity|]. split; [exact E|].
  unfold revertSettings at 1. simpl. rewrite E, Ht. unfold request. simpl.
  destruct (server _ _); simpl; eexists; split; reflexivity.
Qed.

(** X14: [deleteDoc] saves nothing when the fetch fails or gives [null]:
    the promise is rejected after the one GET.  When the fetch gives an
    array or a primitive value, that value is saved as it is, without a
    [_deleted] mark. *)
Theorem deleteDoc_edges (id : string) (st : state) :
  (fst (fetch id st) = Rejected \/ fst (fetch id st) = Fulfilled JNull ->
     delete id st = (Rejected, snd (fetch id st)))
  /\ (forall d,
        fst (fetch id st) = Fulfilled d ->
        d <> JNull -> (forall props, d <> JObj props) ->
        delete id st = save d (snd (fetch id st))).
Proof.
  unfold deleteDoc. destruct (fetch id st) as [[d|] st1]; simpl; split.
  - intros [H|H]; [discriminate|]. inversion H; subst. reflexivity.
  - intros d' [= <-] Hn Ho. destruct d; try reflexivity; [congruence|].
    now destruct (Ho props).
  - reflexivity.
  - discriminate.
Qed.

(** X15: [purgeDoc] never rejects, whatever the server answers.  It sends
    the purge request only after a fetch that gave a value other than
    [null]: a POST to [_purge] on the test database whose body maps the
    fetched [_id] to the list of the fetched [_rev]. *)
Theorem purgeDoc_never_rejects (id : string) (st : state) :
  fst (purge id st) = Fulfilled tt
  /\ (fst (fetch id st) = Rejected \/ fst (fetch id st) = Fulfilled JNull ->
        snd (purge id st) = snd (fetch id st))
  /\ (forall d,
        fst (fetch id st) = Fulfilled d -> d <> JNull ->
        exists o,
          requests (snd (purge id st)) = requests (snd (fetch id st)) ++ [o]
          /\ method o = "POST"
          /\ path o = "/" +:+ dbName +:+ "/_purge"
          /\ body o
             = Some (JSON_stringify
                       (JObj [(property_key (member "_id" d),
                               JArr [element (member "_rev" d)])]))).
Proof.
  unfold purgeDoc. destruct (fetch id st) as [[d|] st1]; simpl.
  - split; [destruct d; simpl; try reflexivity;
            destruct (onTestDb _ st1); reflexivity|].
    split.
    + intros [H|H]; [discriminate|]. inversion H; subst. reflexivity.
    + intros d' [= <-] Hn.
      destruct d; try congruence;
        unfold requestOnTestDb, request; simpl; eexists; repeat split.
  - split; [reflexivity|]. split; [reflexivity | discriminate].
Qed.

End CallFacts.
End HelperMoreFacts.

(** ** The widget's plugin *)

Module WidgetFacts.
Import Widget.

Section PluginFacts.
Variable has_method : string -> bool.

(** X16: called with an object (or with nothing), the plugin builds a
    widget on exactly the elements that have none, in order, and leaves the
    others alone; after it every element has a widget, so that calling it
    again builds nothing.  Called with a method name on elements without a
    widget, it does nothing. *)
Theorem plugin_builds_once (o : plugin_options) (es : list element) :
  (defaulted o = OObject ->
     snd (plugin has_method o es) = false
     /\ snd (fst (plugin has_method o es)) = map Constructed (map el (List.filter bare es))
     /\ map el (fst (fst (plugin has_method o es))) = map el es
     /\ Forall (fun e => bare e = false) (fst (fst (plugin has_method o es)))
     /\ plugin has_method o (fst (fst (plugin has_method o es)))
        = (fst (fst (plugin has_method o es)), [], false))
  /\ (forall name,
        defaulted o = OString name -> Forall (fun e => bare e = true) es ->
        plugin has_method o es = (es, [], false)).
Proof.
  split.
  - intros Ho. induction es as [|e es (IH1 & IH2 & IH3 & IH4 & IH5)].
    + simpl. repeat split. constructor.
    + cbn [plugin List.filter].
      destruct (plugin has_method o es) as [[es1 fx1] t1].
      cbn [fst snd] in *.
      destruct (data e) as [w|] eqn:Ed.
      * assert (Hb : bare e = false) by (unfold bare; now rewrite Ed).
        assert (He : each_element has_method o e = Some (e, []))
          by (unfold each_element; now rewrite Ed, Ho).
        rewrite He, Hb. cbn [fst snd app map].
        split; [exact IH1|]. split; [exact IH2|]. split; [now rewrite IH3|].
        split; [constructor; [exact Hb | exact IH4]|].
        cbn [plugin]. now rewrite He, IH5.
      * assert (Hb : bare e = true) by (unfold bare; now rewrite Ed).
        assert (He : each_element has_method o e
                     = Some ({| el := el e; data := Some OObject |}, [Constructed (el e)]))
          by (unfold each_element; now rewrite Ed, Ho).
        assert (He' : each_element has_method o {| el := el e; data := Some OObject |}
                      = Some ({| el := el e; data := Some OObject |}, []))
          by (unfold each_element; simpl; now rewrite Ho).
        rewrite He, Hb. cbn [fst snd app map el].
        split; [exact IH1|]. split; [now rewrite IH2|]. split; [now rewrite IH3|].
        split; [constructor; [reflexivity | exact IH4]|].
        cbn [plugin]. now rewrite He', IH5.
  - intros name Ho Hall. induction Hall as [|e es He Hall IH]; [reflexivity|].
    cbn [plugin]. unfold each_element. rewrite Ho. unfold bare in He.
    destruct (data e); [discriminate|]. now rewrite IH.
Qed.

End PluginFacts.
End WidgetFacts.

(** * The further properties at concrete inputs *)

Lemma writeHeaders_status_witness :
  snd (writeHeaders "medic" true (fun s => s) "Basic" "/medic/_design/medic/_rewrite/"
         None true 401 empty) !! "location"
  = Some "/medic/login?redirect=/medic/_design/medic/_rewrite/".
Proof.
  destruct (writeHeaders_status "medic" true (fun s => s) "Basic"
              "/medic/_design/medic/_rewrite/" None true 401 empty) as [H _].
  destruct H as (_ & _ & _ & _ & H); [vm_compute; discriminate | exact H].
Defined.

Lemma proxyReq_redirects_witness :
  exists a b,
    path_of "/medic/_design/medic/_rewrite/app.js"
    = a ++ path_of (appPrefix "medic" "medic") ++ b.
Proof.
  destruct (proxyReq_redirects "medic" "medic" true (fun s => s) "Basic"
              "/medic/_design/medic/_rewrite/app.js" empty) as [H _].
  destruct (H eq_refl) as [H1 _]. destruct (H1 eq_refl) as [H2 _]. exact H2.
Defined.

(** A static resource under the application prefix keeps its 401. *)
Example static_resource_keeps_401 :
  fst (proxyReq_writeHead "medic" "medic" true (fun s => s) "Basic"
         "/medic/_design/medic/_rewrite/static/img/logo.png" 401 empty) = 401%Z.
Proof. reflexivity. Qed.

Lemma copyProxyHeaders_spec_witness :
  res_headers
    (copyProxyHeaders (fun s => s)
       {| up_statusCode := 200; up_statusMessage := None;
          up_headers := [("ETag", Some "1"); ("X-Gone", None); ("etag", Some "2")] |}
       {| headersSent := false; statusCode := 0; statusMessage := None;
          res_headers := empty |}) !! "etag"
  = Some "2".
Proof.
  destruct (copyProxyHeaders_spec (fun s => s)
              {| up_statusCode := 200; up_statusMessage := None;
                 up_headers := [("ETag", Some "1"); ("X-Gone", None); ("etag", Some "2")] |}
              {| headersSent := false; statusCode := 0; statusMessage := None;
                 res_headers := (empty : gmap string string) |}) as [_ H].
  destruct (H eq_refl) as (_ & _ & H3).
  apply (H3 [("ETag", Some "1"); ("X-Gone", None)] "etag" "2" []);
    [reflexivity | intros k' v' []].
Defined.

Lemma json_guard_ends_request_witness :
  snd (Demo.serve (incoming PUT "/api/v1/settings" (Some "text/plain") Demo.admin))
  = Error (Some 400%Z) "Content-Type must be application/json".
Proof.
  apply (json_guard_ends_request "medic" Demo.parsers_ok Demo.controllers_next
           Demo.may_edit Demo.table
           (incoming PUT "/api/v1/settings" (Some "text/plain") Demo.admin)
           (fst (Demo.serve (incoming PUT "/api/v1/settings" (Some "text/plain")
                               Demo.admin)))
           (snd (Demo.serve (incoming PUT "/api/v1/settings" (Some "text/plain")
                               Demo.admin)))
           (Controller "settings.put") Ended).
  - discriminate.
  - reflexivity.
  - vm_compute. auto.
Defined.

Lemma online_never_forbidden_witness :
  snd (Demo.serve (incoming GET "/api/v1/hydrate" None Demo.admin)) <> FirewallError.
Proof.
  apply (online_never_forbidden "medic" Demo.parsers_ok Demo.controllers_next
           Demo.may_edit Demo.table (incoming GET "/api/v1/hydrate" None Demo.admin)).
  reflexivity.
Defined.

Lemma write_proxy_behind_firewall_witness :
  In (OfflineUserFirewall, Continued)
     (fst (Demo.serve (incoming DELETE "/medic/doc1" None Demo.chw))).
Proof.
  assert (E : dispatch "medic" Demo.parsers_ok Demo.controllers_next Demo.may_edit
                (routes "medic" "medic") (incoming DELETE "/medic/doc1" None Demo.chw)
              = (fst (Demo.serve (incoming DELETE "/medic/doc1" None Demo.chw)),
                 Proxied proxyForAuth
                   (set_authorized (incoming DELETE "/medic/doc1" None Demo.chw))))
    by (vm_compute; reflexivity).
  exact (proj1 (write_proxy_behind_firewall "medic" "medic" Demo.parsers_ok
                  Demo.controllers_next Demo.may_edit _ _ _ E)).
Defined.

Lemma mark_needs_post_or_put_witness :
  infodoc_marked (set_authorized (incoming DELETE "/medic/doc1" None Demo.chw)) = false.
Proof.
  apply (mark_needs_post_or_put "medic" "medic" Demo.parsers_ok
           Demo.controllers_next Demo.may_edit
           (incoming DELETE "/medic/doc1" None Demo.chw)
           (fst (Demo.serve (incoming DELETE "/medic/doc1" None Demo.chw)))
           proxyForAuth
           (set_authorized (incoming DELETE "/medic/doc1" None Demo.chw)));
    [discriminate | discriminate | reflexivity].
Defined.

Lemma offline_never_hydrates_witness : isOnline Demo.admin = true.
Proof.
  apply (offline_never_hydrates "medic" "medic" Demo.parsers_ok
           Demo.controllers_next Demo.may_edit "hydration.hydrate" GET
           "/api/v1/hydrate" None Demo.admin Continued).
  - left. reflexivity.
  - vm_compute. auto.
Defined.

(** An offline user's request to the hydrate endpoint stops at the
    firewall handler of its route. *)
Example offline_hydrate_blocked :
  Demo.serve (incoming POST "/api/v1/hydrate" (Some "application/json") Demo.chw)
  = ([(OfflineUserFirewall, Ended)], FirewallError).
Proof. reflexivity. Qed.

Lemma revert_sends_fetched_witness :
  exists o,
    Helper.requests
      (snd (HelperDemo.revertSettings
              (snd (HelperDemo.updateSettings (Helper.JObj []) HelperDemo.idle))))
    = Helper.requests (snd (HelperDemo.updateSettings (Helper.JObj []) HelperDemo.idle))
        ++ [o]
    /\ Helper.method o = "PUT".
Proof.
  destruct (HelperMoreFacts.revert_sends_fetched "localhost" "admin" "pass"
              "medic-test" 5988 HelperDemo.server HelperDemo.stringify
              (Helper.JObj []) HelperDemo.idle HelperDemo.stored
              eq_refl eq_refl eq_refl) as (o & E & M & _).
  exists o. split; [exact E | exact M].
Defined.

Lemma update_failures_witness :
  fst (Helper.updateSettings "localhost" "admin" "pass" "medic-test" 5988
         (fun _ _ => Helper.Rejected) HelperDemo.stringify (Helper.JObj [])
         HelperDemo.idle)
  = Helper.Returned Helper.Rejected.
Proof.
  destruct (HelperMoreFacts.update_failures "localhost" "admin" "pass"
              "medic-test" 5988 (fun _ _ => Helper.Rejected) HelperDemo.stringify
              (Helper.JObj []) HelperDemo.idle eq_refl) as [H _].
  destruct (H eq_refl) as [H1 _]. exact H1.
Defined.

Lemma revert_failure_witness :
  Helper.originalSettings
    (snd (Helper.revertSettings "localhost" "admin" "pass" "medic-test" 5988
            (fun _ _ => Helper.Rejected) HelperDemo.stringify HelperDemo.updated))
  = Some (Helper.JObj [("locale", Helper.JStr "en")]).
Proof.
  destruct (HelperMoreFacts.revert_failure "localhost" "admin" "pass"
              "medic-test" 5988 (fun _ _ => Helper.Rejected) HelperDemo.stringify
              HelperDemo.updated (Helper.JObj [("locale", Helper.JStr "en")])
              eq_refl eq_refl eq_refl) as (_ & H & _).
  exact H.
Defined.

Lemma deleteDoc_edges_witness :
  fst (Helper.deleteDoc "localhost" "admin" "pass" "medic-test" 5988
         (fun _ _ => Helper.Fulfilled Helper.JNull) HelperDemo.stringify "doc1"
         HelperDemo.idle)
  = Helper.Rejected.
Proof.
  destruct (HelperMoreFacts.deleteDoc_edges "localhost" "admin" "pass"
              "medic-test" 5988 (fun _ _ => Helper.Fulfilled Helper.JNull)
              HelperDemo.stringify "doc1" HelperDemo.idle) as [H _].
  rewrite H; [reflexivity | right; reflexivity].
Defined.

Lemma purgeDoc_never_rejects_witness :
  exists o,
    Helper.requests
      (snd (HelperMore.purgeDoc "localhost" "admin" "pass" "medic-test" 5988
              HelperDemo.server HelperDemo.stringify (fun _ => "doc1") "doc1"
              HelperDemo.idle))
    = Helper.requests
        (snd (Helper.getDoc "localhost" "admin" "pass" "medic-test" 5988
                HelperDemo.server "doc1" HelperDemo.idle)) ++ [o]
    /\ Helper.path o = "/medic-test/_purge".
Proof.
  destruct (HelperMoreFacts.purgeDoc_never_rejects "localhost" "admin" "pass"
              "medic-test" 5988 HelperDemo.server HelperDemo.stringify
              (fun _ => "doc1") "doc1" HelperDemo.idle) as (_ & _ & H).
  destruct (H HelperDemo.stored eq_refl) as (o & E & _ & P & _); [discriminate|].
  exists o. split; [exact E | exact P].
Defined.

Lemma plugin_builds_once_witness :
  snd (fst (Widget.plugin (fun _ => true) Widget.OFalsy
              [ {| Widget.el := 1; Widget.data := None |};
                {| Widget.el := 2; Widget.data := Some Widget.OObject |};
                {| Widget.el := 3; Widget.data := None |} ]))
  = [Widget.Constructed 1; Widget.Constructed 3].
Proof.
  destruct (WidgetFacts.plugin_builds_once (fun _ => true) Widget.OFalsy
              [ {| Widget.el := 1; Widget.data := None |};
                {| Widget.el := 2; Widget.data := Some Widget.OObject |};
                {| Widget.el := 3; Widget.data := None |} ]) as [H _].
  destruct (H eq_refl) as (_ & H2 & _). exact H2.
Defined.
